(** * ZeroStep: WebDriver-style commands over a CDP session

    A shallow embedding of [packages/playwright/src/cdp.ts] and of the
    page-action helpers that sit next to it.  Every exported function of
    the source is an [async] function that talks to the host automation
    framework; here it becomes a computation in a state-and-exception
    monad over a [World] that holds the module-level session cache, the
    sessions the host keeps attached, and the trace of host calls issued
    so far.  What the host and the browser answer is not decided by this
    code: it is taken through the [Host] and [Builtins] interfaces, and
    every theorem holds for all their implementations. *)

From Stdlib Require Import Floats Ascii.
From stdpp Require Import gmap strings list.

Set Warnings "-register-all".
Local Open Scope string_scope.
Local Open Scope list_scope.

(** ** JavaScript values *)

(** A JS [number] is an IEEE 754 binary64 value.  A JS string is a
    sequence of UTF-16 code units, compared unit by unit by [===] and
    indexed unit by unit by [s[i]] and [s.length]; [string] stands for
    it, one [ascii] for each code unit. *)
Definition number := float.

(** The values an argument of type [any] can take.  An object carries
    its own data properties and its prototype ([JSNull] ends the chain);
    [callable] tells functions from other objects, as [typeof] does. *)
Inductive JSValue : Type :=
| JSUndefined
| JSNull
| JSBoolean (b : bool)
| JSNumber (n : number)
| JSString (s : string)
| JSBigInt (z : Z)
| JSSymbol (description : string)
| JSObject (callable : bool) (props : list (string * JSValue)) (proto : JSValue).

Definition typeof (v : JSValue) : string :=
  match v with
  | JSUndefined => "undefined"
  | JSNull => "object"
  | JSBoolean _ => "boolean"
  | JSNumber _ => "number"
  | JSString _ => "string"
  | JSBigInt _ => "bigint"
  | JSSymbol _ => "symbol"
  | JSObject callable _ _ => if callable then "function" else "object"
  end.

(** Truthiness, as [&&] and [filter] test it. *)
Definition ToBoolean (v : JSValue) : bool :=
  match v with
  | JSUndefined | JSNull => false
  | JSBoolean b => b
  | JSNumber n => negb (PrimFloat.is_nan n || PrimFloat.is_zero n)
  | JSString s => negb (String.eqb s "")
  | JSBigInt z => negb (Z.eqb z 0)
  | JSSymbol _ => true
  | JSObject _ _ _ => true
  end.

Definition own_property (key : string) (props : list (string * JSValue)) : option JSValue :=
  snd <$> List.find (fun kv => String.eqb (fst kv) key) props.

(** [Reflect.has(target, key)]: own or inherited.  The source calls it
    behind [typeof arg === 'object'], so the non-object case (a
    [TypeError] in JS) is never reached and reads [false] here. *)
Fixpoint Reflect_has (target : JSValue) (key : string) : bool :=
  match target with
  | JSObject _ props proto =>
      match own_property key props with
      | Some _ => true
      | None => Reflect_has proto key
      end
  | _ => false
  end.

(** [target[key]] on data properties. *)
Fixpoint get_property (target : JSValue) (key : string) : JSValue :=
  match target with
  | JSObject _ props proto =>
      match own_property key props with
      | Some v => v
      | None => get_property proto key
      end
  | _ => JSUndefined
  end.

(** [Object.prototype], without its built-in members. *)
Definition Object_prototype : JSValue := JSObject false [] JSNull.

(** The object literal [{ [key]: v }]. *)
Definition object_literal (key : string) (v : JSValue) : JSValue :=
  JSObject false [(key, v)] Object_prototype.

(** ** Text that is read unit by unit *)

(** A UTF-16 code unit, by its high and its low byte.  The text that
    [sendKeysToElement] types is a JS string that the code indexes:
    [value.length] counts code units and [value[i]] is the string of
    the one unit at [i], also when that unit is half of a surrogate
    pair.  Such a text is a list of code units; [string] is kept for the
    strings that the code only compares and passes on. *)
Definition code_unit : Type := ascii * ascii.

Definition unit_of (n : N) : code_unit :=
  (ascii_of_N (n / 256), ascii_of_N (n mod 256)).

Definition unit_value (u : code_unit) : N :=
  (256 * N_of_ascii (fst u) + N_of_ascii (snd u))%N.

Definition is_high_surrogate (u : code_unit) : bool :=
  (0xD800 <=? unit_value u)%N && (unit_value u <=? 0xDBFF)%N.

Definition is_low_surrogate (u : code_unit) : bool :=
  (0xDC00 <=? unit_value u)%N && (unit_value u <=? 0xDFFF)%N.

(** The characters (code points) of a text, each by its code units: a
    high surrogate followed by a low surrogate is one character, every
    other unit is a character of its own. *)
Fixpoint characters (text : list code_unit) : list (list code_unit) :=
  match text with
  | [] => []
  | u :: rest =>
      match rest with
      | v :: rest' =>
          if is_high_surrogate u && is_low_surrogate v
          then [u; v] :: characters rest'
          else [u] :: characters rest
      | [] => [[u]]
      end
  end.

Fixpoint has_surrogate_pair (text : list code_unit) : bool :=
  match text with
  | [] => false
  | u :: rest =>
      match rest with
      | v :: _ => (is_high_surrogate u && is_low_surrogate v) || has_surrogate_pair rest
      | [] => false
      end
  end.

(** The text of a string of Latin-1 characters. *)
Definition of_latin1 (s : string) : list code_unit :=
  map (fun c => (Ascii.zero, c)) (String.list_ascii_of_string s).

(** ** The protocol surface *)

(** Objects are compared by identity in the source ([Map] keys, "the
    identical object"), so a page handle and a session are their
    identities. *)
Definition Page := nat.
Definition CDPSession := nat.

(** [{ nodeId?, backendNodeId?, objectId? }], the parameter record shared
    by [DOM.focus] and [DOM.getContentQuads]. *)
Record NodeSelector := {
  sel_nodeId : option number;
  sel_backendNodeId : option number;
  sel_objectId : option string;
}.

(** [{ nodeId: n }] and [{ backendNodeId: n }] *)
Definition by_nodeId (n : number) : NodeSelector :=
  {| sel_nodeId := Some n; sel_backendNodeId := None; sel_objectId := None |}.

Definition by_backendNodeId (n : number) : NodeSelector :=
  {| sel_nodeId := None; sel_backendNodeId := Some n; sel_objectId := None |}.

(** [Runtime.CallArgument] as the source builds it: [{ value: v }] or
    [{ objectId: id }]. *)
Inductive CallArgument : Type :=
| ByValue (value : JSValue)
| ByObjectId (objectId : JSValue).

(** The protocol methods the modelled functions send, with their
    parameters. *)
Inductive Request : Type :=
| DOM_requestNode (objectId : string)
| DOM_focus (args : NodeSelector)
| DOM_getAttributes (nodeId : number)
| DOM_getContentQuads (args : NodeSelector)
| DOM_getDocument (depth : Z)
| DOM_querySelectorAll (nodeId : number) (selector : string)
| DOM_resolveNode (nodeId : number)
| Input_dispatchKeyEvent (type : string) (text : option (list code_unit))
| Runtime_enable
| Runtime_evaluate (expression : string)
| Runtime_callFunctionOn (objectId : option string) (functionDeclaration : string)
    (arguments : list CallArgument) (returnByValue : option bool)
| Runtime_getProperties (objectId : option string) (ownProperties : bool).

(** [Runtime.RemoteObject], the fields the source reads. *)
Record RemoteObject := {
  className : option string;
  remote_objectId : option string;
  remote_value : JSValue;
}.

Record PropertyDescriptor := {
  prop_name : string;
  prop_value : option RemoteObject;
}.

(** The part of each method's result that the source reads. *)
Definition Response (r : Request) : Type :=
  match r with
  | DOM_requestNode _ => number
  | DOM_focus _ => unit
  | DOM_getAttributes _ => list string
  | DOM_getContentQuads _ => list (list number)
  | DOM_getDocument _ => number
  | DOM_querySelectorAll _ _ => list number
  | DOM_resolveNode _ => RemoteObject
  | Input_dispatchKeyEvent _ _ => unit
  | Runtime_enable => unit
  | Runtime_evaluate _ => RemoteObject
  | Runtime_callFunctionOn _ _ _ _ => RemoteObject
  | Runtime_getProperties _ _ => list PropertyDescriptor
  end.

(** A call made to the host automation framework. *)
Inductive Event : Type :=
| NewCDPSession (page : Page)
| Detach (session : CDPSession)
| Send (session : CDPSession) (r : Request)
| KeyboardType (page : Page) (text : string).

(** ** Interfaces of the environment *)

(** [WEBDRIVER_ELEMENT_KEY] of [config.ts]. *)
Class Config := { WEBDRIVER_ELEMENT_KEY : string }.

(** Built-ins of the JS runtime that the source calls. *)
Class Builtins := {
  parseInt : string -> number;
}.

(** The host automation framework.  Its answer to a call may depend on
    everything that was called before; [None] and [false] stand for a
    rejected promise (a protocol error). *)
Class Host := {
  host_newCDPSession : list Event -> Page -> bool;
  host_detach : list Event -> CDPSession -> bool;
  host_send : list Event -> CDPSession -> forall r : Request, option (Response r);
  host_keyboard_type : list Event -> Page -> string -> bool;
}.

(** ** Worlds and asynchronous computations *)

Record World := {
  cdpSessionByPage : gmap Page CDPSession;
  attached : gmap CDPSession Page;
  sessions_created : nat;
  trace : list Event;
}.

Definition initial_world : World :=
  {| cdpSessionByPage := ∅; attached := ∅; sessions_created := 0; trace := [] |}.

Inductive JSError : Type :=
| Error (message : string)
| TypeError
| ProtocolError.

Inductive Outcome (A : Type) : Type :=
| Returned (a : A)
| Thrown (e : JSError).
Arguments Returned {A} a.
Arguments Thrown {A} e.

(** An [async] function body, run to completion: each [await] is a
    sequencing point. *)
Definition Async (A : Type) : Type := World -> Outcome A * World.

Definition ret {A} (a : A) : Async A := fun w => (Returned a, w).

Definition throw {A} (e : JSError) : Async A := fun w => (Thrown e, w).

Definition bind {A B} (m : Async A) (k : A -> Async B) : Async B :=
  fun w =>
    match m w with
    | (Returned a, w') => k a w'
    | (Thrown e, w') => (Thrown e, w')
    end.

Notation "'let*' x ':=' m 'in' k" := (bind m (fun x => k))
  (at level 10, x name, m at level 100, k at level 200, only parsing).
Notation "m ;; k" := (bind m (fun _ => k))
  (at level 100, k at level 200, right associativity, only parsing).

Definition record (e : Event) (w : World) : World :=
  {| cdpSessionByPage := cdpSessionByPage w;
     attached := attached w;
     sessions_created := sessions_created w;
     trace := trace w ++ [e] |}.

(** [for (let i = 0; i < n; i++) { await body(i) }] *)
Fixpoint for_from (i n : nat) (body : nat -> Async unit) : Async unit :=
  match n with
  | 0 => ret tt
  | S n' => body i ;; for_from (S i) n' body
  end.

Definition for_loop (n : nat) (body : nat -> Async unit) : Async unit :=
  for_from 0 n body.

(** [await Promise.all(xs.map(async x => await f(x)))] for an [f] that
    makes one host call: the calls are all issued, in the order of [xs],
    before any answer is awaited, and one rejection rejects the whole. *)
Fixpoint Promise_all_map {A B} (f : A -> Async B) (xs : list A) : Async (list B) :=
  fun w =>
    match xs with
    | [] => (Returned [], w)
    | x :: xs' =>
        let (first, w1) := f x w in
        let (others, w2) := Promise_all_map f xs' w1 in
        (match first, others with
         | Returned y, Returned ys => Returned (y :: ys)
         | Thrown e, _ => Thrown e
         | _, Thrown e => Thrown e
         end, w2)
    end.

(** ** cdp.ts *)

Module cdp.
Section Commands.
Context {config : Config} {builtins : Builtins} {host : Host}.

(** [page.context().newCDPSession(page)]: the host attaches a new
    session object to the page. *)
Definition newCDPSession (page : Page) : Async CDPSession :=
  fun w =>
    if host_newCDPSession (trace w) page then
      let session := sessions_created w in
      (Returned session,
       {| cdpSessionByPage := cdpSessionByPage w;
          attached := <[session := page]> (attached w);
          sessions_created := S session;
          trace := trace w ++ [NewCDPSession page] |})
    else (Thrown ProtocolError, record (NewCDPSession page) w).

(** [session.detach()] *)
Definition detach (session : CDPSession) : Async unit :=
  fun w =>
    if host_detach (trace w) session then
      (Returned tt,
       {| cdpSessionByPage := cdpSessionByPage w;
          attached := delete session (attached w);
          sessions_created := sessions_created w;
          trace := trace w ++ [Detach session] |})
    else (Thrown ProtocolError, record (Detach session) w).

(** [session.send(method, params)] *)
Definition send (session : CDPSession) (r : Request) : Async (Response r) :=
  fun w =>
    match host_send (trace w) session r with
    | Some answer => (Returned answer, record (Send session r) w)
    | None => (Thrown ProtocolError, record (Send session r) w)
    end.

Definition Map_has (page : Page) : Async bool :=
  fun w => (Returned (bool_decide (is_Some (cdpSessionByPage w !! page))), w).

Definition Map_get (page : Page) : Async (option CDPSession) :=
  fun w => (Returned (cdpSessionByPage w !! page), w).

Definition Map_set (page : Page) (session : CDPSession) : Async unit :=
  fun w =>
    (Returned tt,
     {| cdpSessionByPage := <[page := session]> (cdpSessionByPage w);
        attached := attached w;
        sessions_created := sessions_created w;
        trace := trace w |}).

Definition Map_delete (page : Page) : Async unit :=
  fun w =>
    (Returned tt,
     {| cdpSessionByPage := delete page (cdpSessionByPage w);
        attached := attached w;
        sessions_created := sessions_created w;
        trace := trace w |}).

(** The non-null assertion [x!]: nothing at run time; a later member
    access on [undefined] is a [TypeError]. *)
Definition non_null {A} (x : option A) : Async A :=
  match x with
  | Some a => ret a
  | None => throw TypeError
  end.

Definition detachCPDSession (page : Page) : Async unit :=
  let* cached := Map_has page in
  if cached : bool then
    let* session := (let* s := Map_get page in non_null s) in
    detach session ;;
    Map_delete page
  else ret tt.

Definition getCDPSession (page : Page) : Async CDPSession :=
  let* cached := Map_has page in
  (if negb cached then
     let* session := newCDPSession page in
     Map_set page session
   else ret tt) ;;
  let* s := Map_get page in
  non_null s.

(** [value[i]] on a string: the string of the one code unit at index
    [i], or [undefined] out of range. *)
Definition string_index (value : list code_unit) (i : nat) : option (list code_unit) :=
  (fun u => [u]) <$> value !! i.

Definition sendKeysToElement (page : Page) (id : string) (value : list (list code_unit))
  : Async bool :=
  let* cdpSession := getCDPSession page in
  let value := value !! 0 in
  let* nodeId := send cdpSession (DOM_requestNode id) in
  send cdpSession (DOM_focus (by_nodeId nodeId)) ;;
  let* value := non_null value in
  for_loop (length value) (fun i =>
    send cdpSession (Input_dispatchKeyEvent "char" (string_index value i))) ;;
  ret true.

(** The loop of [getElementAttribute], with its early [return]:
    [n] iterations are left and [i] is the loop variable.  Falling off
    the end returns [undefined]. *)
Fixpoint attribute_scan (attributes : list string) (name : string) (i n : nat)
  : option string :=
  match n with
  | 0 => None
  | S n' =>
      if bool_decide (attributes !! i = Some name) then attributes !! (i + 1)
      else attribute_scan attributes name (S i) n'
  end.

Definition getElementAttribute (page : Page) (id : string) (name : string)
  : Async (option string) :=
  let* cdpSession := getCDPSession page in
  let* nodeId := send cdpSession (DOM_requestNode id) in
  let* attributes := send cdpSession (DOM_getAttributes nodeId) in
  ret (attribute_scan attributes name 0 (length attributes)).

(** [ToNumber] of a destructured array slot: a missing slot is
    [undefined], which converts to [NaN]. *)
Definition ToNumber (x : option number) : number :=
  match x with
  | Some n => n
  | None => PrimFloat.nan
  end.

Record ContentQuads := {
  topLeftX : option number; topLeftY : option number;
  topRightX : option number; topRightY : option number;
  bottomRightX : option number; bottomRightY : option number;
  bottomLeftX : option number; bottomLeftY : option number;
  width : number; height : number;
  centerX : number; centerY : number;
}.

(** The geometry computed from [quadsResponse.quads[0]]. *)
Definition content_quads_of (quad : list number) : ContentQuads :=
  let topLeftX := quad !! 0 in
  let topLeftY := quad !! 1 in
  let topRightX := quad !! 2 in
  let topRightY := quad !! 3 in
  let bottomRightX := quad !! 4 in
  let bottomRightY := quad !! 5 in
  let bottomLeftX := quad !! 6 in
  let bottomLeftY := quad !! 7 in
  let width := (ToNumber topRightX - ToNumber topLeftX)%float in
  let height := (ToNumber bottomRightY - ToNumber topRightY)%float in
  let centerX := (ToNumber topLeftX + width / 2)%float in
  let centerY := (ToNumber topRightY + height / 2)%float in
  {| topLeftX := topLeftX; topLeftY := topLeftY;
     topRightX := topRightX; topRightY := topRightY;
     bottomRightX := bottomRightX; bottomRightY := bottomRightY;
     bottomLeftX := bottomLeftX; bottomLeftY := bottomLeftY;
     width := width; height := height;
     centerX := centerX; centerY := centerY |}.

Definition getContentQuads (page : Page) (args : NodeSelector) : Async ContentQuads :=
  let* cdpSession := getCDPSession page in
  let* quads := send cdpSession (DOM_getContentQuads args) in
  let* quad := non_null (quads !! 0) in
  ret (content_quads_of quad).

Definition focusElement (page : Page) (args : NodeSelector) : Async unit :=
  let* cdpSession := getCDPSession page in
  send cdpSession (DOM_focus args).

Definition of_optional_string (s : option string) : JSValue :=
  match s with
  | Some s => JSString s
  | None => JSUndefined
  end.

(** [{ [WEBDRIVER_ELEMENT_KEY]: objectId }] *)
Definition element_reference (objectId : option string) : JSValue :=
  object_literal WEBDRIVER_ELEMENT_KEY (of_optional_string objectId).

Definition querySelectorAll (page : Page) (selector : string) : Async (list JSValue) :=
  let* cdpSession := getCDPSession page in
  let* rootDocumentNode := send cdpSession (DOM_getDocument (-1)) in
  let* returned := send cdpSession (DOM_querySelectorAll rootDocumentNode selector) in
  let* resolvedNodes :=
    Promise_all_map (fun nodeId => send cdpSession (DOM_resolveNode nodeId)) returned in
  ret (map (fun node => element_reference (remote_objectId node)) resolvedNodes).

(** [using_] is [args.using]. *)
Definition findElements (page : Page) (using_ value : string) : Async (list JSValue) :=
  if String.eqb value "iframe" then ret []
  else if String.eqb using_ "css selector" || String.eqb using_ "tag name" then
    querySelectorAll page value
  else throw (Error ("Unsupported findElements strategy " +:+ using_)).

(** The callback of [args.args.map] in [executeScript]. *)
Definition marshal_argument (arg : JSValue) : CallArgument :=
  if String.eqb (typeof arg) "boolean" || String.eqb (typeof arg) "string"
     || String.eqb (typeof arg) "number" then
    ByValue arg
  else if ToBoolean arg && String.eqb (typeof arg) "object"
          && Reflect_has arg WEBDRIVER_ELEMENT_KEY then
    ByObjectId (get_property arg WEBDRIVER_ELEMENT_KEY)
  else ByValue JSUndefined.

(** What [executeScript] returns: an array of element references, or a
    single value (an element reference or the script's value). *)
Inductive ScriptResult : Type :=
| ResultArray (elements : list JSValue)
| ResultValue (v : JSValue).

Definition node_list_entry (e : PropertyDescriptor) : JSValue :=
  if negb (PrimFloat.is_nan (parseInt (prop_name e))) then
    element_reference (prop_value e ≫= remote_objectId)
  else JSNull.

Definition executeScript (page : Page) (script : string) (args : list JSValue)
  : Async ScriptResult :=
  let functionDeclaration := "function() { " +:+ script +:+ " }" in
  let functionArgs := map marshal_argument args in
  let* cdpSession := getCDPSession page in
  send cdpSession Runtime_enable ;;
  let* window := send cdpSession (Runtime_evaluate "window") in
  let* returnedRef :=
    send cdpSession
      (Runtime_callFunctionOn (remote_objectId window) functionDeclaration
         functionArgs None) in
  if bool_decide (className returnedRef = Some "NodeList") then
    let* nodeProperties :=
      send cdpSession (Runtime_getProperties (remote_objectId returnedRef) true) in
    ret (ResultArray (List.filter ToBoolean (map node_list_entry nodeProperties)))
  else if bool_decide (className returnedRef = Some "HTMLHtmlElement") then
    ret (ResultValue (element_reference (remote_objectId returnedRef)))
  else
    let* returnedValue :=
      send cdpSession
        (Runtime_callFunctionOn (remote_objectId window) functionDeclaration
           functionArgs (Some true)) in
    ret (ResultValue (remote_value returnedValue)).

End Commands.
End cdp.

(** ** The page actions built on cdp.ts *)

(** An element as the closure of [scrollPage] sees it: its scroll
    position, the height of its content and the height of its box. *)
Record Element := {
  scrollTop : number;
  scrollHeight : number;
  clientHeight : number;
}.

(** Scrolling is the browser's part.  It is modelled from the CSSOM View
    module, for instant scrolling of a box that overflows downwards: a
    coordinate that is not finite counts as 0, and the position asked
    for is brought into the range from 0 to
    [scrollHeight - clientHeight]. *)
Definition normalize_non_finite (x : number) : number :=
  if PrimFloat.is_finite x then x else 0%float.

Definition scroll_range_end (e : Element) : number :=
  let room := (scrollHeight e - clientHeight e)%float in
  if (room <? 0)%float then 0%float else room.

Definition clamp_scroll (e : Element) (y : number) : number :=
  if (y <? 0)%float then 0%float
  else if (scroll_range_end e <? y)%float then scroll_range_end e
  else y.

(** The scroll position that [e.scrollTo({ top: y })] leaves. *)
Definition scrolled_to (e : Element) (y : number) : number :=
  clamp_scroll e (normalize_non_finite y).

(** The scroll position that [e.scrollBy({ top: d })] leaves. *)
Definition scrolled_by (e : Element) (d : number) : number :=
  scrolled_to e (scrollTop e + normalize_non_finite d)%float.

(** [y] is a position that [e] can be scrolled to. *)
Definition reachable (e : Element) (y : number) : bool :=
  PrimFloat.is_finite y && negb (y <? 0)%float && negb (scroll_range_end e <? y)%float.

(** [e.scrollTo({ top })] *)
Definition Element_scrollTo (top : number) (e : Element) : Element :=
  {| scrollTop := scrolled_to e top;
     scrollHeight := scrollHeight e;
     clientHeight := clientHeight e |}.

(** [e.scrollBy({ top })] *)
Definition Element_scrollBy (top : number) (e : Element) : Element :=
  {| scrollTop := scrolled_by e top;
     scrollHeight := scrollHeight e;
     clientHeight := clientHeight e |}.

(** The browser side of a page, as the closure of [scrollPage] sees it:
    [window.visualViewport], [document], and the elements the document
    refers to, by identity.  [document.scrollingElement] and
    [document.body] are [null] when the document has no such element. *)
Record Document := {
  scrollingElement : option nat;
  body : option nat;
}.

Record Window := {
  visualViewport : option number;
  document : Document;
  elements : nat -> Element;
}.

Definition update_element (id : nat) (f : Element -> Element) (w : Window) : Window :=
  {| visualViewport := visualViewport w;
     document := document w;
     elements := fun j => if Nat.eqb j id then f (elements w id) else elements w j |}.

Module actions.
Section Actions.
Context {config : Config} {builtins : Builtins} {host : Host}.

(** [page.keyboard.type(text)] *)
Definition keyboard_type (page : Page) (text : string) : Async unit :=
  fun w =>
    if host_keyboard_type (trace w) page text then
      (Returned tt, record (KeyboardType page text) w)
    else (Thrown ProtocolError, record (KeyboardType page text) w).

Definition sendKeys (page : Page) (value : string) : Async unit :=
  keyboard_type page value.

Definition sendKeysToElement (page : Page) (id : string) (value : string)
  : Async unit :=
  cdp.focusElement page (by_backendNodeId (parseInt id)) ;;
  sendKeys page value.

(** [document.scrollingElement || document.body]: an element is truthy,
    [null] is not. *)
Definition elementToScroll (w : Window) : option nat :=
  match scrollingElement (document w) with
  | Some element => Some element
  | None => body (document w)
  end.

(** A method call on [elementToScroll]; on [null] it is a [TypeError],
    raised before anything is scrolled. *)
Definition call_on_element (method : Element -> Element) (w : Window)
  : Outcome unit * Window :=
  match elementToScroll w with
  | Some element => (Returned tt, update_element element method w)
  | None => (Thrown TypeError, w)
  end.

(** The closure that [scrollPage] hands to [page.evaluate], run in the
    page's window; what it throws rejects the promise of [scrollPage].
    [visualViewport w] is [window.visualViewport?.height]. *)
Definition scrollPage (target : string) (w : Window) : Outcome unit * Window :=
  let viewportHeight := default 720%float (visualViewport w) in
  let relativeScrollDistance := (0.75 * viewportHeight)%float in
  if String.eqb target "top" then
    call_on_element (Element_scrollTo 0%float) w
  else if String.eqb target "bottom" then
    call_on_element (fun e => Element_scrollTo (scrollHeight e) e) w
  else if String.eqb target "up" then
    call_on_element (Element_scrollBy (- relativeScrollDistance)%float) w
  else if String.eqb target "down" then
    call_on_element (Element_scrollBy relativeScrollDistance) w
  else (Thrown (Error ("Unsupported scroll target " +:+ target)), w).

End Actions.
End actions.

(** ** Sequences of session operations *)

Inductive SessionOp : Type :=
| GetSession (page : Page)
| DetachSession (page : Page).

Section Runs.
Context {host : Host}.

Definition run_op (w : World) (op : SessionOp) : World :=
  match op with
  | GetSession page => snd (cdp.getCDPSession page w)
  | DetachSession page => snd (cdp.detachCPDSession page w)
  end.

Definition run_ops (ops : list SessionOp) (w : World) : World :=
  foldl run_op w ops.

End Runs.

(** The world after the host calls [es] have been issued. *)
Definition record_all (es : list Event) (w : World) : World :=
  {| cdpSessionByPage := cdpSessionByPage w;
     attached := attached w;
     sessions_created := sessions_created w;
     trace := trace w ++ es |}.

(** The key event whose text is [text], and the one that
    [sendKeysToElement] dispatches for the code unit [u]. *)
Definition character_event (session : CDPSession) (text : list code_unit) : Event :=
  Send session (Input_dispatchKeyEvent "char" (Some text)).

Definition unit_event (session : CDPSession) (u : code_unit) : Event :=
  character_event session [u].

(** The character U+1F600, a surrogate pair. *)
Definition grinning_face : list code_unit := [unit_of 0xD83D; unit_of 0xDE00].

(** The events of [w'] that were not yet in [w]. *)
Definition events_since (w w' : World) : list Event :=
  drop (length (trace w)) (trace w').

(** The [arguments] of every [Runtime.callFunctionOn] in a trace. *)
Definition call_arguments_sent (t : list Event) : list (list CallArgument) :=
  omap (fun e =>
          match e with
          | Send _ (Runtime_callFunctionOn _ _ arguments _) => Some arguments
          | _ => None
          end) t.

(** The sessions the host keeps attached to [page]. *)
Definition sessions_of (page : Page) (w : World) : gset CDPSession :=
  dom (filter (fun kv => kv.2 = page) (attached w)).

(** The cache and the host agree: a session is attached to a page
    exactly when the cache holds it for that page, and every session
    was numbered when it was created. *)
Definition cache_consistent (w : World) : Prop :=
  (forall s p, attached w !! s = Some p <-> cdpSessionByPage w !! p = Some s)
  /\ (forall s p, attached w !! s = Some p -> s < sessions_created w).

(** ** The attribute lookup, as the specification words it *)

(** [DOM.getAttributes] answers with the interleaved array
    [name1, value1, name2, value2, ...].  The value that follows the
    matching name, or nothing when no attribute has that name. *)
Fixpoint spec_attribute_value (attributes : list string) (name : string)
  : option string :=
  match attributes with
  | n :: v :: rest =>
      if bool_decide (n = name) then Some v else spec_attribute_value rest name
  | _ => None
  end.

(** The names and the values of an interleaved attribute array. *)
Fixpoint attribute_names (attributes : list string) : list string :=
  match attributes with
  | n :: _ :: rest => n :: attribute_names rest
  | _ => []
  end.

Fixpoint attribute_values (attributes : list string) : list string :=
  match attributes with
  | _ :: v :: rest => v :: attribute_values rest
  | _ => []
  end.

(** ** A responsive host, for concrete runs *)

Definition always_answers (host : Host) : Prop :=
  forall t s r, is_Some (host_send t s r).

Definition sample_object (cls : option string) (id : string) (v : JSValue) : RemoteObject :=
  {| className := cls; remote_objectId := Some id; remote_value := v |}.

Definition sample_send (t : list Event) (s : CDPSession) (r : Request)
  : option (Response r) :=
  match r return option (Response r) with
  | DOM_requestNode _ => Some 7%float
  | DOM_focus _ => Some tt
  | DOM_getAttributes _ => Some ["class"; "id"; "id"; "foo"]
  | DOM_getContentQuads _ =>
      Some [[0; 0; 10; 0; 10; 20; 0; 20]%float]
  | DOM_getDocument _ => Some 1%float
  | DOM_querySelectorAll _ _ => Some [2; 3]%float
  | DOM_resolveNode _ => Some (sample_object (Some "HTMLDivElement") "node" JSUndefined)
  | Input_dispatchKeyEvent _ _ => Some tt
  | Runtime_enable => Some tt
  | Runtime_evaluate _ => Some (sample_object (Some "Window") "window" JSUndefined)
  | Runtime_callFunctionOn _ _ _ _ =>
      Some {| className := None; remote_objectId := None;
              remote_value := JSNumber 42%float |}
  | Runtime_getProperties _ _ => Some []
  end.

Definition sample_host : Host :=
  {| host_newCDPSession := fun _ _ => true;
     host_detach := fun _ _ => true;
     host_send := sample_send;
     host_keyboard_type := fun _ _ _ => true |}.

Definition sample_config : Config :=
  {| WEBDRIVER_ELEMENT_KEY := "element-6066-11e4-a52e-4f735466cecf" |}.

(** A [parseInt] that only knows the strings the examples use. *)
Definition sample_builtins : Builtins :=
  {| parseInt := fun s => if String.eqb s "7" then 7%float else PrimFloat.nan |}.
(** A page scrolled down by 100 in a viewport 800 high, with content
    5000 high; element [1] is the scrolling element, element [2] the
    body. *)
Definition sample_window : Window :=
  {| visualViewport := Some 800%float;
     document := {| scrollingElement := Some 1; body := Some 2 |};
     elements := fun _ =>
       {| scrollTop := 100%float; scrollHeight := 5000%float;
          clientHeight := 800%float |} |}.

(** The same page for a document in quirks mode that has no body: there
    is neither a scrolling element nor a body. *)
Definition bodiless_window : Window :=
  {| visualViewport := Some 800%float;
     document := {| scrollingElement := None; body := None |};
     elements := elements sample_window |}.

(** The world once the sample host has given page [0] its session. *)
Definition sample_world : World :=
  {| cdpSessionByPage := {[ 0 := 0 ]}; attached := {[ 0 := 0 ]};
     sessions_created := 1; trace := [NewCDPSession 0] |}.

(** The scan of [getElementAttribute] by recursion on the array: the
    element after the first one equal to [name]. *)
Fixpoint element_after (name : string) (attributes : list string) : option string :=
  match attributes with
  | [] => None
  | a :: rest =>
      if bool_decide (a = name) then head rest else element_after name rest
  end.

(** ** Proof steps for asynchronous code *)

(** One [await]: unfold the outermost sequencing and use what the
    awaited call is known to give. *)
Ltac await_with H := unfold bind at 1; rewrite H; cbv beta iota.

(** One [await] of a protocol call whose answer is not known: both
    outcomes are followed. *)
Ltac await_send :=
  unfold bind at 1;
  match goal with
  | |- context [cdp.send ?s ?r ?w] =>
      let answer := fresh "answer" in
      let Hsend := fresh "Hsend" in
      unfold cdp.send at 1;
      destruct (host_send (trace w) s r) as [answer|] eqn:Hsend;
      cbv beta iota
  end.

(** ** The marshalling of arguments, as the specification words it *)

(** A string, a number or a boolean. *)
Definition is_primitive (v : JSValue) : bool :=
  match v with
  | JSString _ | JSNumber _ | JSBoolean _ => true
  | _ => false
  end.

Section Marshalling.
Context {config : Config}.

(** An object (neither [null] nor a function) that has the
    element-reference key, as its own property or an inherited one. *)
Definition has_element_key (v : JSValue) : bool :=
  match v with
  | JSObject false _ _ => Reflect_has v WEBDRIVER_ELEMENT_KEY
  | _ => false
  end.

(** [Marshalled v a]: the argument [v] is passed as [a]. *)
Inductive Marshalled : JSValue -> CallArgument -> Prop :=
| passed_by_value v :
    is_primitive v = true -> Marshalled v (ByValue v)
| passed_by_object_id v :
    has_element_key v = true ->
    Marshalled v (ByObjectId (get_property v WEBDRIVER_ELEMENT_KEY))
| passed_as_undefined v :
    is_primitive v = false -> has_element_key v = false ->
    Marshalled v (ByValue JSUndefined).

End Marshalling.

(** ** Sending until the host rejects *)

(** Sending requests one after the other and stopping after the first
    one that the host rejects: the calls that are made, and whether all
    of them were answered.  [t] is the trace before the first call. *)
Fixpoint send_until_rejected {host : Host} (t : list Event) (session : CDPSession)
    (requests : list Request) : list Event * bool :=
  match requests with
  | [] => ([], true)
  | r :: requests' =>
      match host_send t session r with
      | Some _ =>
          let (sent, all) :=
            send_until_rejected (t ++ [Send session r]) session requests' in
          (Send session r :: sent, all)
      | None => ([Send session r], false)
      end
  end.

(** The request of the key event for the code unit [u]. *)
Definition key_request (u : code_unit) : Request :=
  Input_dispatchKeyEvent "char" (Some [u]).

(** ** [getCDPSession] around its [await] *)

(** [getCDPSession] suspends once, at [await newCDPSession(page)], and
    only when the page has no session; other callers may run in between.
    Its two halves: up to the [await] (the membership test and the call
    to the host), and from the [await] on (the [set] and the [get]). *)
Section Suspension.
Context {host : Host}.

Definition getCDPSession_until_await (page : Page) : Async (option CDPSession) :=
  let* cached := cdp.Map_has page in
  if negb cached then
    let* session := cdp.newCDPSession page in
    ret (Some session)
  else ret None.

Definition getCDPSession_after_await (page : Page) (created : option CDPSession)
  : Async CDPSession :=
  match created with
  | Some session => cdp.Map_set page session
  | None => ret tt
  end ;;
  let* s := cdp.Map_get page in
  cdp.non_null s.

End Suspension.

(** ** Pointer input *)

(** The calls that move and press the pointer: the protocol method
    [Input.dispatchMouseEvent] on a session, and [page.mouse.move] and
    [page.mouse.click] of the host framework. *)
Inductive PointerCall : Type :=
| Input_dispatchMouseEvent (session : CDPSession) (type : string) (x y : number)
    (button : string) (clickCount buttons : number)
| Mouse_move (page : Page) (x y : number)
| Mouse_click (page : Page) (x y : number).

(** What has been asked of the host, in order: the calls of [Event] and
    the pointer calls. *)
Inductive PageEvent : Type :=
| Protocol (e : Event)
| Pointer (c : PointerCall).

(** The host's answer to a pointer call, given all that was asked
    before; [false] is a rejected promise.  The answers of [Host] keep
    depending on the calls of [Event] alone. *)
Class PointerHost := {
  host_pointer : list PageEvent -> PointerCall -> bool;
}.

Record PageWorld := {
  world : World;
  page_trace : list PageEvent;
}.

Definition PageAsync (A : Type) : Type := PageWorld -> Outcome A * PageWorld.

Definition page_ret {A} (a : A) : PageAsync A := fun r => (Returned a, r).

Definition page_bind {A B} (m : PageAsync A) (k : A -> PageAsync B) : PageAsync B :=
  fun r =>
    match m r with
    | (Returned a, r') => k a r'
    | (Thrown e, r') => (Thrown e, r')
    end.

Notation "'let+' x ':=' m 'in' k" := (page_bind m (fun x => k))
  (at level 10, x name, m at level 100, k at level 200, only parsing).
Notation "m ;;+ k" := (page_bind m (fun _ => k))
  (at level 100, k at level 200, right associativity, only parsing).

(** An asynchronous function of cdp.ts, awaited where pointer calls are
    made too: the host calls it issues enter the page's trace. *)
Definition lift {A} (m : Async A) : PageAsync A :=
  fun r =>
    let (outcome, w') := m (world r) in
    (outcome,
     {| world := w';
        page_trace := page_trace r ++ (Protocol <$> events_since (world r) w') |}).

Definition pointer {pointer_host : PointerHost} (c : PointerCall) : PageAsync unit :=
  fun r =>
    let r' := {| world := world r; page_trace := page_trace r ++ [Pointer c] |} in
    if host_pointer (page_trace r) c then (Returned tt, r')
    else (Thrown ProtocolError, r').

(** The page events of [r'] that were not yet in [r]. *)
Definition page_events_since (r r' : PageWorld) : list PageEvent :=
  drop (length (page_trace r)) (page_trace r').

(** The pointer calls among page events. *)
Definition pointer_calls (t : list PageEvent) : list PointerCall :=
  omap (fun e => match e with Pointer c => Some c | Protocol _ => None end) t.

(** [clickElement] of cdp.ts. *)
Module cdp_pointer.
Section Commands.
Context {builtins : Builtins} {host : Host} {pointer_host : PointerHost}.

Definition clickElement (page : Page) (id : string) : PageAsync bool :=
  let+ cdpSession := lift (cdp.getCDPSession page) in
  let+ quads := lift (cdp.getContentQuads page (by_backendNodeId (parseInt id))) in
  pointer (Input_dispatchMouseEvent cdpSession "mousePressed"
             (cdp.centerX quads) (cdp.centerY quads) "left" 1%float 1%float) ;;+
  pointer (Input_dispatchMouseEvent cdpSession "mouseReleased"
             (cdp.centerX quads) (cdp.centerY quads) "left" 1%float 1%float) ;;+
  page_ret true.

End Commands.
End cdp_pointer.

(** The pointer actions of the page-action helpers. *)
Module actions_pointer.
Section Actions.
Context {builtins : Builtins} {host : Host} {pointer_host : PointerHost}.

Definition hoverLocation (page : Page) (x y : number) : PageAsync unit :=
  pointer (Mouse_move page x y).

Definition clickLocation (page : Page) (x y : number) : PageAsync unit :=
  hoverLocation page x y ;;+
  pointer (Mouse_click page x y).

Definition clickElement (page : Page) (id : string) : PageAsync unit :=
  let+ quads := lift (cdp.getContentQuads page (by_backendNodeId (parseInt id))) in
  clickLocation page (cdp.centerX quads) (cdp.centerY quads).

Definition hoverElement (page : Page) (id : string) : PageAsync unit :=
  let+ quads := lift (cdp.getContentQuads page (by_backendNodeId (parseInt id))) in
  hoverLocation page (cdp.centerX quads) (cdp.centerY quads).

End Actions.
End actions_pointer.

(** ** The viewport metadata *)

(** [window.visualViewport] and [window.devicePixelRatio], as the
    closure of [getViewportMetadata] reads them. *)
Record VisualViewport := {
  viewport_width : number;
  viewport_height : number;
}.

Record ViewportWindow := {
  window_visualViewport : option VisualViewport;
  devicePixelRatio : number;
}.

Record ViewportMetadata := {
  viewportWidth : number;
  viewportHeight : number;
  pixelRatio : number;
}.

(** [x || 0] for [x] a number or [undefined]. *)
Definition or_zero (x : option number) : number :=
  match x with
  | Some n => if ToBoolean (JSNumber n) then n else 0%float
  | None => 0%float
  end.

(** The closure that [getViewportMetadata] evaluates in the page. *)
Definition getViewportMetadata (w : ViewportWindow) : ViewportMetadata :=
  {| viewportWidth := or_zero (viewport_width <$> window_visualViewport w);
     viewportHeight := or_zero (viewport_height <$> window_visualViewport w);
     pixelRatio := devicePixelRatio w |}.

(** Pointer hosts for concrete runs: one accepts every call, one
    rejects them all. *)
Definition accepting_pointer_host : PointerHost :=
  {| host_pointer := fun _ _ => true |}.

Definition rejecting_pointer_host : PointerHost :=
  {| host_pointer := fun _ _ => false |}.

Definition initial_page : PageWorld :=
  {| world := initial_world; page_trace := [] |}.

(** ** Further hosts, for concrete runs *)

(** A host that grants sessions and rejects every other call. *)
Definition refusing_host : Host :=
  {| host_newCDPSession := fun _ _ => true;
     host_detach := fun _ _ => false;
     host_send := fun _ _ _ => None;
     host_keyboard_type := fun _ _ _ => false |}.

(** A page on which nothing is laid out and every script returns a
    node list of two nodes; resolutions and key events are rejected. *)
Definition node_list_send (t : list Event) (s : CDPSession) (r : Request)
  : option (Response r) :=
  match r return option (Response r) with
  | DOM_requestNode _ => Some 7%float
  | DOM_focus _ => Some tt
  | DOM_getAttributes _ => Some ["title"; "href"; "lang"; "en"]
  | DOM_getContentQuads _ => Some []
  | DOM_getDocument _ => Some 1%float
  | DOM_querySelectorAll _ _ => Some [2; 3]%float
  | DOM_resolveNode _ => None
  | Input_dispatchKeyEvent _ _ => None
  | Runtime_enable => Some tt
  | Runtime_evaluate _ => Some (sample_object (Some "Window") "window" JSUndefined)
  | Runtime_callFunctionOn _ _ _ _ =>
      Some (sample_object (Some "NodeList") "list" JSUndefined)
  | Runtime_getProperties _ _ =>
      Some [ {| prop_name := "0";
                prop_value := Some (sample_object (Some "HTMLDivElement") "a" JSUndefined) |};
             {| prop_name := "1";
                prop_value := Some (sample_object (Some "HTMLDivElement") "b" JSUndefined) |};
             {| prop_name := "length"; prop_value := None |} ]
  end.

Definition node_list_host : Host :=
  {| host_newCDPSession := fun _ _ => true;
     host_detach := fun _ _ => true;
     host_send := node_list_send;
     host_keyboard_type := fun _ _ _ => true |}.

(** Arguments of every kind: three primitives, an element reference,
    [null], a function that carries the element key, and an object
    without it. *)
Definition sample_arguments : list JSValue :=
  [JSString "a"; JSNumber 1%float; JSBoolean true;
   object_literal "element-6066-11e4-a52e-4f735466cecf" (JSString "node-9");
   JSNull;
   JSObject true [("element-6066-11e4-a52e-4f735466cecf", JSString "node-9")]
     Object_prototype;
   JSObject false [("x", JSNumber 2%float)] Object_prototype].

(** Every script returns the root element. *)
Definition root_element_host : Host :=
  {| host_newCDPSession := fun _ _ => true;
     host_detach := fun _ _ => true;
     host_send := fun t s r =>
       match r return option (Response r) with
       | Runtime_callFunctionOn _ _ _ _ =>
           Some (sample_object (Some "HTMLHtmlElement") "html" JSUndefined)
       | r' => sample_send t s r'
       end;
     host_keyboard_type := fun _ _ _ => true |}.

(** A [parseInt] that knows the indices [0] and [1]. *)
Definition index_builtins : Builtins :=
  {| parseInt := fun s =>
       if String.eqb s "0" then 0%float
       else if String.eqb s "1" then 1%float
       else PrimFloat.nan |}.
(** * Properties *)

(** ** The session cache *)

Section SessionCache.
Context {host : Host}.

Lemma getCDPSession_cached page session w :
  cdpSessionByPage w !! page = Some session ->
  cdp.getCDPSession page w = (Returned session, w).
Proof.
  intros Hc. unfold cdp.getCDPSession, bind, cdp.Map_has, cdp.Map_get.
  rewrite Hc. rewrite bool_decide_eq_true_2 by eauto.
  simpl. rewrite Hc. reflexivity.
Qed.

Lemma getCDPSession_created page w :
  cdpSessionByPage w !! page = None ->
  host_newCDPSession (trace w) page = true ->
  cdp.getCDPSession page w =
    (Returned (sessions_created w),
     {| cdpSessionByPage := <[page := sessions_created w]> (cdpSessionByPage w);
        attached := <[sessions_created w := page]> (attached w);
        sessions_created := S (sessions_created w);
        trace := trace w ++ [NewCDPSession page] |}).
Proof.
  intros Hc Hh.
  unfold cdp.getCDPSession, bind, cdp.Map_has, cdp.Map_get, cdp.newCDPSession,
    cdp.Map_set.
  rewrite Hc. rewrite bool_decide_eq_false_2 by (intros [? ?]; discriminate).
  simpl. rewrite Hh. simpl. rewrite lookup_insert_eq. reflexivity.
Qed.

Lemma getCDPSession_rejected page w :
  cdpSessionByPage w !! page = None ->
  host_newCDPSession (trace w) page = false ->
  cdp.getCDPSession page w = (Thrown ProtocolError, record (NewCDPSession page) w).
Proof.
  intros Hc Hh.
  unfold cdp.getCDPSession, bind, cdp.Map_has, cdp.newCDPSession.
  rewrite Hc. rewrite bool_decide_eq_false_2 by (intros [? ?]; discriminate).
  simpl. rewrite Hh. reflexivity.
Qed.

Lemma detachCPDSession_absent page w :
  cdpSessionByPage w !! page = None ->
  cdp.detachCPDSession page w = (Returned tt, w).
Proof.
  intros Hc. unfold cdp.detachCPDSession, bind, cdp.Map_has.
  rewrite Hc. rewrite bool_decide_eq_false_2 by (intros [? ?]; discriminate).
  reflexivity.
Qed.

Lemma detachCPDSession_detached page session w :
  cdpSessionByPage w !! page = Some session ->
  host_detach (trace w) session = true ->
  cdp.detachCPDSession page w =
    (Returned tt,
     {| cdpSessionByPage := delete page (cdpSessionByPage w);
        attached := delete session (attached w);
        sessions_created := sessions_created w;
        trace := trace w ++ [Detach session] |}).
Proof.
  intros Hc Hh.
  unfold cdp.detachCPDSession, bind, cdp.Map_has, cdp.Map_get, cdp.detach,
    cdp.Map_delete.
  rewrite Hc. rewrite bool_decide_eq_true_2 by eauto.
  cbn. rewrite Hc. cbn. rewrite Hh. reflexivity.
Qed.

Lemma detachCPDSession_rejected page session w :
  cdpSessionByPage w !! page = Some session ->
  host_detach (trace w) session = false ->
  cdp.detachCPDSession page w = (Thrown ProtocolError, record (Detach session) w).
Proof.
  intros Hc Hh.
  unfold cdp.detachCPDSession, bind, cdp.Map_has, cdp.Map_get, cdp.detach.
  rewrite Hc. rewrite bool_decide_eq_true_2 by eauto.
  cbn. rewrite Hc. cbn. rewrite Hh. reflexivity.
Qed.

End SessionCache.

Section SessionRuns.
Context {host : Host}.

(** Every operation leaves the cache and the host in agreement. *)
Lemma getCDPSession_consistent page w :
  cache_consistent w -> cache_consistent (snd (cdp.getCDPSession page w)).
Proof.
  intros [Hiff Hlt].
  destruct (cdpSessionByPage w !! page) as [s|] eqn:Hc.
  - rewrite (getCDPSession_cached _ _ _ Hc). split; assumption.
  - destruct (host_newCDPSession (trace w) page) eqn:Hh.
    + rewrite (getCDPSession_created _ _ Hc Hh). split; cbn.
      * intros s p. destruct (decide (s = sessions_created w)) as [->|Hs].
        -- rewrite lookup_insert_eq. split.
           ++ intros [= <-]. by rewrite lookup_insert_eq.
           ++ destruct (decide (p = page)) as [->|Hp]; [done|].
              rewrite lookup_insert_ne by done. intros Hq.
              apply Hiff, Hlt in Hq. lia.
        -- rewrite lookup_insert_ne by done. split.
           ++ intros Ha. destruct (decide (p = page)) as [->|Hp].
              ** apply Hiff in Ha. congruence.
              ** rewrite lookup_insert_ne by done. by apply Hiff.
           ++ destruct (decide (p = page)) as [->|Hp].
              ** rewrite lookup_insert_eq. congruence.
              ** rewrite lookup_insert_ne by done. apply Hiff.
      * intros s p. destruct (decide (s = sessions_created w)) as [->|Hs]; [lia|].
        rewrite lookup_insert_ne by done. intros Ha%Hlt. lia.
    + rewrite (getCDPSession_rejected _ _ Hc Hh). split; assumption.
Qed.

Lemma detachCPDSession_consistent page w :
  cache_consistent w -> cache_consistent (snd (cdp.detachCPDSession page w)).
Proof.
  intros [Hiff Hlt].
  destruct (cdpSessionByPage w !! page) as [s0|] eqn:Hc.
  - destruct (host_detach (trace w) s0) eqn:Hh.
    + rewrite (detachCPDSession_detached _ _ _ Hc Hh). split; cbn.
      * intros s p. split.
        -- intros [Hs Ha]%lookup_delete_Some. apply Hiff in Ha.
           apply lookup_delete_Some. split; [congruence | done].
        -- intros [Hp Hq]%lookup_delete_Some. apply lookup_delete_Some.
           split; [| by apply Hiff].
           intros ->. apply Hiff in Hc, Hq. congruence.
      * intros s p [_ Ha]%lookup_delete_Some. by eapply Hlt.
    + rewrite (detachCPDSession_rejected _ _ _ Hc Hh). split; assumption.
  - rewrite (detachCPDSession_absent _ _ Hc). split; assumption.
Qed.

Lemma initial_world_consistent : cache_consistent initial_world.
Proof.
  split; cbn; intros s p; rewrite ?lookup_empty; [split |]; discriminate.
Qed.

Lemma run_ops_consistent ops w :
  cache_consistent w -> cache_consistent (run_ops ops w).
Proof.
  revert w. induction ops as [|op ops IH]; intros w Hw; [exact Hw|].
  change (run_ops (op :: ops) w) with (run_ops ops (run_op w op)).
  apply IH. destruct op; unfold run_op.
  - by apply getCDPSession_consistent.
  - by apply detachCPDSession_consistent.
Qed.

(** Under that agreement the sessions of a page are read off the cache. *)
Lemma sessions_of_cache page w :
  cache_consistent w ->
  sessions_of page w =
    match cdpSessionByPage w !! page with
    | Some s => {[ s ]}
    | None => ∅
    end.
Proof.
  intros [Hiff _]. apply set_eq. intros s. unfold sessions_of.
  rewrite elem_of_dom. unfold is_Some.
  setoid_rewrite map_lookup_filter_Some. cbn.
  split.
  - intros (p & Ha & ->). apply Hiff in Ha. rewrite Ha. set_solver.
  - destruct (cdpSessionByPage w !! page) as [s'|] eqn:Hc; [|set_solver].
    intros ->%elem_of_singleton. exists page. split; [by apply Hiff | done].
Qed.

End SessionRuns.

Section SessionClaims.
Context {host : Host}.

Lemma run_op_keeps_session page session op w :
  op <> DetachSession page ->
  cdpSessionByPage w !! page = Some session ->
  cdpSessionByPage (run_op w op) !! page = Some session.
Proof.
  intros Hop Hc. destruct op as [q|q]; unfold run_op.
  - destruct (cdpSessionByPage w !! q) as [s|] eqn:Hq.
    + by rewrite (getCDPSession_cached _ _ _ Hq).
    + assert (q <> page) by congruence.
      destruct (host_newCDPSession (trace w) q) eqn:Hh.
      * rewrite (getCDPSession_created _ _ Hq Hh). cbn.
        by rewrite lookup_insert_ne.
      * by rewrite (getCDPSession_rejected _ _ Hq Hh).
  - assert (q <> page) by congruence.
    destruct (cdpSessionByPage w !! q) as [s|] eqn:Hq.
    + destruct (host_detach (trace w) s) eqn:Hh.
      * rewrite (detachCPDSession_detached _ _ _ Hq Hh). cbn.
        by rewrite lookup_delete_ne.
      * by rewrite (detachCPDSession_rejected _ _ _ Hq Hh).
    + by rewrite (detachCPDSession_absent _ _ Hq).
Qed.

Lemma run_ops_keeps_session page session later w :
  Forall (fun op => op <> DetachSession page) later ->
  cdpSessionByPage w !! page = Some session ->
  cdpSessionByPage (run_ops later w) !! page = Some session.
Proof.
  intros Hl. revert w. induction Hl as [|op later Hop _ IH]; intros w Hc; [done|].
  change (run_ops (op :: later) w) with (run_ops later (run_op w op)).
  apply IH. by apply run_op_keeps_session.
Qed.

Lemma run_op_sessions_created op w :
  sessions_created w <= sessions_created (run_op w op).
Proof.
  destruct op as [q|q]; unfold run_op.
  - destruct (cdpSessionByPage w !! q) as [s|] eqn:Hq.
    + by rewrite (getCDPSession_cached _ _ _ Hq).
    + destruct (host_newCDPSession (trace w) q) eqn:Hh.
      * rewrite (getCDPSession_created _ _ Hq Hh). cbn. lia.
      * by rewrite (getCDPSession_rejected _ _ Hq Hh).
  - destruct (cdpSessionByPage w !! q) as [s|] eqn:Hq.
    + destruct (host_detach (trace w) s) eqn:Hh.
      * by rewrite (detachCPDSession_detached _ _ _ Hq Hh).
      * by rewrite (detachCPDSession_rejected _ _ _ Hq Hh).
    + by rewrite (detachCPDSession_absent _ _ Hq).
Qed.

Lemma run_ops_sessions_created ops w :
  sessions_created w <= sessions_created (run_ops ops w).
Proof.
  revert w. induction ops as [|op ops IH]; intros w; [cbn; lia|].
  change (run_ops (op :: ops) w) with (run_ops ops (run_op w op)).
  pose proof (run_op_sessions_created op w). specialize (IH (run_op w op)). lia.
Qed.

Lemma detachCPDSession_returned page w w' :
  cdp.detachCPDSession page w = (Returned tt, w') ->
  cdpSessionByPage w' !! page = None /\ sessions_created w' = sessions_created w.
Proof.
  destruct (cdpSessionByPage w !! page) as [s|] eqn:Hc.
  - destruct (host_detach (trace w) s) eqn:Hh.
    + rewrite (detachCPDSession_detached _ _ _ Hc Hh). intros [= <-]. cbn.
      by rewrite lookup_delete_eq.
    + rewrite (detachCPDSession_rejected _ _ _ Hc Hh). discriminate.
  - rewrite (detachCPDSession_absent _ _ Hc). by intros [= <-].
Qed.

(** C5. For a page handle without a session, the first [getCDPSession]
    that the host grants creates exactly one session object (one
    [newCDPSession] call, one more session counted); every later
    [getCDPSession] for that handle, after any operations that do not
    detach it, returns that same object and changes nothing; and once
    [detachCPDSession] has completed, the next [getCDPSession] creates
    a session object different from the first. *)
Theorem getCDPSession_memoizes (page : Page) (w : World) :
  cdpSessionByPage w !! page = None ->
  host_newCDPSession (trace w) page = true ->
  exists session w1,
    cdp.getCDPSession page w = (Returned session, w1)
    /\ events_since w w1 = [NewCDPSession page]
    /\ sessions_created w1 = S (sessions_created w)
    /\ (forall later,
          Forall (fun op => op <> DetachSession page) later ->
          cdp.getCDPSession page (run_ops later w1)
          = (Returned session, run_ops later w1))
    /\ (forall later w3,
          cdp.detachCPDSession page (run_ops later w1) = (Returned tt, w3) ->
          host_newCDPSession (trace w3) page = true ->
          exists session' w4,
            cdp.getCDPSession page w3 = (Returned session', w4)
            /\ session' <> session
            /\ events_since w3 w4 = [NewCDPSession page]
            /\ sessions_created w4 = S (sessions_created w3)).
Proof.
  intros Hc Hh. eexists _, _. split; [by apply getCDPSession_created|].
  set (w1 := Build_World _ _ _ _).
  assert (Hc1 : cdpSessionByPage w1 !! page = Some (sessions_created w))
    by apply lookup_insert_eq.
  split; [by unfold events_since; cbn; rewrite drop_app_length|].
  split; [done|]. split.
  - intros later Hl. apply getCDPSession_cached. by apply run_ops_keeps_session.
  - intros later w3 Hd Hh3.
    apply detachCPDSession_returned in Hd as [Hc3 Hn3].
    eexists _, _. split; [by apply getCDPSession_created|].
    split; [|split; [by unfold events_since; cbn; rewrite drop_app_length | done]].
    pose proof (run_ops_sessions_created later w1) as Hle.
    subst w1; cbn in Hle. lia.
Qed.

(** C6. After every sequence of [getCDPSession] and [detachCPDSession]
    operations, from the empty cache and whatever the host answers,
    the host keeps at most one session attached to each page handle,
    and it is the one the cache holds for that handle. *)
Theorem at_most_one_session_per_page (ops : list SessionOp) (page : Page) :
  size (sessions_of page (run_ops ops initial_world)) <= 1
  /\ sessions_of page (run_ops ops initial_world)
     = match cdpSessionByPage (run_ops ops initial_world) !! page with
       | Some s => {[ s ]}
       | None => ∅
       end.
Proof.
  assert (Hw : cache_consistent (run_ops ops initial_world))
    by apply run_ops_consistent, initial_world_consistent.
  rewrite (sessions_of_cache _ _ Hw). split; [|done].
  destruct (cdpSessionByPage _ !! page).
  - by rewrite size_singleton.
  - by rewrite size_empty; lia.
Qed.

End SessionClaims.

(** ** Finding elements *)

Section FindElements.
Context {config : Config} {host : Host}.

(** C1, as the code has it.  The special case is on the selector
    value, not on the strategy: for every strategy, [findElements]
    with the selector value ['iframe'] returns the empty list and
    leaves the world as it was, so no session is created and no
    protocol call is issued. *)
Theorem findElements_iframe_value (page : Page) (using_ : string) (w : World) :
  cdp.findElements page using_ "iframe" w = (Returned [], w)
  /\ events_since w (snd (cdp.findElements page using_ "iframe" w)) = [].
Proof.
  assert (Hrun : cdp.findElements page using_ "iframe" w = (Returned [], w)).
  { unfold cdp.findElements. by rewrite String.eqb_refl. }
  split; [exact Hrun|].
  rewrite Hrun. unfold events_since. cbn [snd]. by rewrite drop_all.
Qed.

(** C2, as the code has it.  A strategy other than ['css selector']
    and ['tag name'] throws the error that names it, without any
    protocol call, unless the selector value is ['iframe']. *)
Theorem findElements_unsupported_strategy
    (page : Page) (using_ value : string) (w : World) :
  using_ <> "css selector" ->
  using_ <> "tag name" ->
  value <> "iframe" ->
  cdp.findElements page using_ value w
  = (Thrown (Error ("Unsupported findElements strategy " +:+ using_)), w).
Proof.
  intros Hcss Htag Hval. unfold cdp.findElements.
  apply String.eqb_neq in Hcss, Htag, Hval.
  rewrite Hcss, Htag, Hval. reflexivity.
Qed.

Lemma findElements_supported_strategy
    (page : Page) (using_ value : string) (w : World) :
  using_ = "css selector" \/ using_ = "tag name" ->
  value <> "iframe" ->
  cdp.findElements page using_ value w = cdp.querySelectorAll page value w.
Proof.
  intros Hu Hval. unfold cdp.findElements.
  apply String.eqb_neq in Hval. rewrite Hval.
  destruct Hu as [-> | ->]; reflexivity.
Qed.

End FindElements.

(** C1 fails as stated: with the strategy ['iframe'] and the selector
    value ['div'] the call throws instead of returning the empty list. *)
Lemma findElements_iframe_strategy_throws :
  cdp.findElements (config := sample_config) (host := sample_host) 0 "iframe" "div" initial_world
  = (Thrown (Error "Unsupported findElements strategy iframe"), initial_world).
Proof. reflexivity. Qed.

(** C2 fails as stated: with the unsupported strategy ['xpath'] and the
    selector value ['iframe'] the call returns the empty list and throws
    nothing. *)
Lemma findElements_xpath_iframe_returns :
  cdp.findElements (config := sample_config) (host := sample_host) 0 "xpath" "iframe" initial_world
  = (Returned [], initial_world).
Proof. reflexivity. Qed.

Lemma findElements_unsupported_strategy_witness :
  cdp.findElements (config := sample_config) (host := sample_host) 0 "xpath" "//div" initial_world
  = (Thrown (Error "Unsupported findElements strategy xpath"), initial_world).
Proof.
  apply (findElements_unsupported_strategy (config := sample_config)
           (host := sample_host));
    discriminate.
Defined.

(** ** Protocol calls and the trace *)

Section Calls.
Context {host : Host}.

Lemma send_answered session r answer w :
  host_send (trace w) session r = Some answer ->
  cdp.send session r w = (Returned answer, record (Send session r) w).
Proof. intros Hs. unfold cdp.send. rewrite Hs. reflexivity. Qed.

Lemma send_rejected session r w :
  host_send (trace w) session r = None ->
  cdp.send session r w = (Thrown ProtocolError, record (Send session r) w).
Proof. intros Hs. unfold cdp.send. rewrite Hs. reflexivity. Qed.

Lemma record_all_nil w : record_all [] w = w.
Proof. destruct w. unfold record_all. cbn. by rewrite app_nil_r. Qed.

Lemma record_all_cons e es w : record_all es (record e w) = record_all (e :: es) w.
Proof. unfold record_all, record. cbn. by rewrite <- app_assoc. Qed.

Lemma record_all_app es es' w :
  record_all es' (record_all es w) = record_all (es ++ es') w.
Proof. unfold record_all. cbn. by rewrite <- app_assoc. Qed.

Lemma events_since_record_all es w : events_since w (record_all es w) = es.
Proof. unfold events_since. cbn. by rewrite drop_app_length. Qed.

(** The loop of [sendKeysToElement] issues the key events of the
    indices [i], [i + 1], ..., one after the other. *)
Lemma for_from_key_events session value n :
  always_answers host ->
  forall i w,
    for_from i n (fun j =>
      cdp.send session (Input_dispatchKeyEvent "char" (cdp.string_index value j))) w
    = (Returned tt,
       record_all
         (map (fun j =>
                 Send session (Input_dispatchKeyEvent "char" (cdp.string_index value j)))
              (seq i n)) w).
Proof.
  intros Hhost. induction n as [|n IH]; intros i w.
  - cbn. by rewrite record_all_nil.
  - cbn [for_from seq map]. unfold bind at 1.
    destruct (Hhost (trace w) session
                (Input_dispatchKeyEvent "char" (cdp.string_index value i)))
      as [[] Hs].
    rewrite (send_answered _ _ _ _ Hs), IH. by rewrite record_all_cons.
Qed.

(** Indexing a text from [0] to its length visits its code units in
    order. *)
Lemma string_index_units session (value : list code_unit) :
  map (fun j => Send session (Input_dispatchKeyEvent "char" (cdp.string_index value j)))
      (seq 0 (length value))
  = map (unit_event session) value.
Proof.
  induction value as [|u value IH]; [reflexivity|].
  cbn [length seq map]. f_equal.
  rewrite <- seq_shift, map_map. exact IH.
Qed.

Lemma characters_step (u v : code_unit) (rest : list code_unit) :
  characters (u :: v :: rest)
  = if is_high_surrogate u && is_low_surrogate v
    then [u; v] :: characters rest
    else [u] :: characters (v :: rest).
Proof. reflexivity. Qed.

Lemma has_surrogate_pair_step (u v : code_unit) (rest : list code_unit) :
  has_surrogate_pair (u :: v :: rest)
  = (is_high_surrogate u && is_low_surrogate v) || has_surrogate_pair (v :: rest).
Proof. reflexivity. Qed.

(** Without a surrogate pair every code unit is a character. *)
Lemma characters_without_pair (text : list code_unit) :
  has_surrogate_pair text = false ->
  characters text = map (fun u => [u]) text.
Proof.
  induction text as [|u rest IH]; [reflexivity|].
  destruct rest as [|v rest']; [reflexivity|].
  rewrite has_surrogate_pair_step, characters_step.
  intros [Hpair Hrest]%orb_false_elim. rewrite Hpair.
  cbn [map]. f_equal. by apply IH.
Qed.

Lemma characters_length_le (n : nat) :
  forall text : list code_unit, length text <= n -> length (characters text) <= length text.
Proof.
  induction n as [|n IH]; intros text Hn.
  - destruct text; [cbn; lia | cbn in Hn; lia].
  - destruct text as [|u [|v rest']]; [cbn; lia | cbn; lia |].
    rewrite characters_step. cbn [length] in Hn.
    destruct (is_high_surrogate u && is_low_surrogate v); cbn [length].
    + specialize (IH rest' ltac:(lia)). lia.
    + specialize (IH (v :: rest') ltac:(cbn [length]; lia)). cbn [length] in IH. lia.
Qed.

(** With a surrogate pair there are fewer characters than code units. *)
Lemma characters_with_pair (text : list code_unit) :
  has_surrogate_pair text = true ->
  length (characters text) < length text.
Proof.
  induction text as [|u rest IH]; [discriminate|].
  destruct rest as [|v rest']; [discriminate|].
  rewrite has_surrogate_pair_step, characters_step.
  destruct (is_high_surrogate u && is_low_surrogate v); cbn [orb length].
  - intros _. pose proof (characters_length_le (length rest') rest' ltac:(lia)). lia.
  - intros Hrest%IH. cbn [length] in Hrest. lia.
Qed.

End Calls.

(** ** Sending keys *)

Section SendKeys.
Context {config : Config} {builtins : Builtins} {host : Host}.

(** C3 (amended).  Given a session for the page and a host
    that answers its calls, [sendKeysToElement] with the string [s]
    resolves the node, focuses it, and then dispatches one ['char'] key
    event per UTF-16 code unit of [s], the [i]-th with the text [s[i]],
    in the order of [s], and nothing else; it returns [true].  That is
    one event per character, with the character as its text, when [s]
    has no surrogate pair; with one there are more events than
    characters. *)
Theorem sendKeysToElement_focus_then_units
    (page : Page) (id : string) (s : list code_unit) (rest : list (list code_unit))
    (w w0 : World) (cdpSession : CDPSession) :
  always_answers host ->
  cdp.getCDPSession page w = (Returned cdpSession, w0) ->
  exists nodeId,
    host_send (trace w0) cdpSession (DOM_requestNode id) = Some nodeId
    /\ cdp.sendKeysToElement page id (s :: rest) w
       = (Returned true,
          record_all
            (Send cdpSession (DOM_requestNode id)
             :: Send cdpSession (DOM_focus (by_nodeId nodeId))
             :: map (unit_event cdpSession) s)
            w0)
    /\ (has_surrogate_pair s = false ->
        map (unit_event cdpSession) s
        = map (character_event cdpSession) (characters s))
    /\ (has_surrogate_pair s = true ->
        length (characters s) < length (map (unit_event cdpSession) s)).
Proof.
  intros Hhost Hget.
  destruct (Hhost (trace w0) cdpSession (DOM_requestNode id)) as [nodeId Hnode].
  exists nodeId. split; [exact Hnode|].
  destruct (Hhost (trace (record (Send cdpSession (DOM_requestNode id)) w0))
              cdpSession (DOM_focus (by_nodeId nodeId))) as [[] Hfocus].
  split; [|split].
  - unfold cdp.sendKeysToElement.
    await_with Hget.
    await_with (send_answered _ _ _ _ Hnode).
    await_with (send_answered _ _ _ _ Hfocus).
    cbn [lookup list_lookup cdp.non_null].
    unfold bind at 1. unfold ret at 1. cbv beta iota.
    unfold for_loop.
    await_with (for_from_key_events cdpSession s (length s) Hhost).
    rewrite string_index_units, !record_all_cons. reflexivity.
  - intros Hnone. rewrite (characters_without_pair _ Hnone), map_map. reflexivity.
  - intros Hpair. rewrite length_map. by apply characters_with_pair.
Qed.

(** The page action of the same name focuses the node by its backend
    id and hands the whole string to [page.keyboard.type]. *)
Lemma actions_sendKeysToElement_focus_then_type
    (page : Page) (id value : string) (w w0 : World) (cdpSession : CDPSession) :
  cdp.getCDPSession page w = (Returned cdpSession, w0) ->
  let focus := DOM_focus (by_backendNodeId (parseInt id)) in
  host_send (trace w0) cdpSession focus = Some tt ->
  host_keyboard_type (trace w0 ++ [Send cdpSession focus]) page value = true ->
  actions.sendKeysToElement page id value w
  = (Returned tt, record_all [Send cdpSession focus; KeyboardType page value] w0).
Proof.
  cbv zeta. intros Hget Hfocus Htype.
  unfold actions.sendKeysToElement, cdp.focusElement.
  unfold bind at 1. await_with Hget.
  rewrite (send_answered _ _ _ _ Hfocus).
  unfold actions.sendKeys, actions.keyboard_type. cbn [trace record].
  rewrite Htype. by rewrite <- record_all_cons.
Qed.

End SendKeys.

Lemma sample_host_always_answers : always_answers sample_host.
Proof. intros t s r. destruct r; cbn; eauto. Qed.

(** Typing "hi": one key event for [h], one for [i]. *)
Lemma sendKeysToElement_focus_then_units_witness :
  cdp.sendKeysToElement (host := sample_host) 0 "node-1" [of_latin1 "hi"] initial_world
  = (Returned true,
     record_all
       [NewCDPSession 0;
        Send 0 (DOM_requestNode "node-1");
        Send 0 (DOM_focus (by_nodeId 7%float));
        character_event 0 (of_latin1 "h");
        character_event 0 (of_latin1 "i")]
       {| cdpSessionByPage := {[ 0 := 0 ]}; attached := {[ 0 := 0 ]};
          sessions_created := 1; trace := [] |}).
Proof.
  destruct (sendKeysToElement_focus_then_units (host := sample_host)
              0 "node-1" (of_latin1 "hi") [] initial_world
              (snd (cdp.getCDPSession (host := sample_host) 0 initial_world)) 0
              sample_host_always_answers eq_refl)
    as (nodeId & Hnode & Hrun & Hcharacters & _).
  injection Hnode as <-. rewrite Hrun, (Hcharacters eq_refl). reflexivity.
Defined.

(** C3 fails as stated: the string of the one character U+1F600 has two
    code units, and [sendKeysToElement] dispatches two key events for
    it, each with half of the surrogate pair as its text. *)
Lemma sendKeysToElement_splits_surrogate_pair :
  cdp.sendKeysToElement (host := sample_host) 0 "node-1" [grinning_face] initial_world
  = (Returned true,
     record_all
       [Send 0 (DOM_requestNode "node-1");
        Send 0 (DOM_focus (by_nodeId 7%float));
        character_event 0 [unit_of 0xD83D];
        character_event 0 [unit_of 0xDE00]]
       sample_world)
  /\ characters grinning_face = [grinning_face].
Proof. split; reflexivity. Qed.

(** ** Executing a script *)

Section ExecuteScript.
Context {config : Config} {builtins : Builtins} {host : Host}.

(** Obtaining the session sends nothing over the protocol. *)
Lemma getCDPSession_events page w :
  exists es,
    trace (snd (cdp.getCDPSession page w)) = trace w ++ es
    /\ (es = [] \/ es = [NewCDPSession page]).
Proof.
  destruct (cdpSessionByPage w !! page) as [s|] eqn:Hc.
  - rewrite (getCDPSession_cached _ _ _ Hc). exists []. by rewrite app_nil_r; auto.
  - destruct (host_newCDPSession (trace w) page) eqn:Hh.
    + rewrite (getCDPSession_created _ _ Hc Hh). eauto.
    + rewrite (getCDPSession_rejected _ _ Hc Hh). eauto.
Qed.

Lemma call_arguments_sent_app t t' :
  call_arguments_sent (t ++ t') = call_arguments_sent t ++ call_arguments_sent t'.
Proof. apply omap_app. Qed.

(** The callback of [args.args.map], by the kind of the argument. *)
Lemma marshal_argument_cases (arg : JSValue) :
  cdp.marshal_argument arg =
    match arg with
    | JSString _ | JSNumber _ | JSBoolean _ => ByValue arg
    | JSObject false _ _ =>
        if Reflect_has arg WEBDRIVER_ELEMENT_KEY
        then ByObjectId (get_property arg WEBDRIVER_ELEMENT_KEY)
        else ByValue JSUndefined
    | _ => ByValue JSUndefined
    end.
Proof.
  unfold cdp.marshal_argument.
  destruct arg as [| | b | n | s | z | d | callable props proto];
    try reflexivity.
  { cbn. by rewrite andb_false_r. }
  destruct callable; [reflexivity|].
  cbn. destruct (own_property WEBDRIVER_ELEMENT_KEY props); reflexivity.
Qed.

Lemma marshal_argument_marshalled (arg : JSValue) :
  Marshalled arg (cdp.marshal_argument arg).
Proof.
  rewrite marshal_argument_cases.
  destruct arg as [| | b | n | s | z | d | [] props proto];
    try (by apply passed_by_value); try (by apply passed_as_undefined).
  destruct (Reflect_has (JSObject false props proto) WEBDRIVER_ELEMENT_KEY) eqn:Hkey.
  - by apply passed_by_object_id.
  - by apply passed_as_undefined.
Qed.

(** Whatever the host answers, a [Runtime.callFunctionOn] that
    [executeScript] sends carries the marshalled arguments. *)
Lemma executeScript_sends_marshalled_only
    (page : Page) (script : string) (args : list JSValue) (w : World) :
  Forall (fun sent => sent = map cdp.marshal_argument args)
    (call_arguments_sent
       (events_since w (snd (cdp.executeScript page script args w)))).
Proof.
  destruct (getCDPSession_events page w) as (es & Hes & Hnone).
  assert (Hsilent : call_arguments_sent es = [])
    by (destruct Hnone as [-> | ->]; reflexivity).
  unfold cdp.executeScript. unfold bind at 1.
  destruct (cdp.getCDPSession page w) as [[cdpSession|e] w0]; cbn [snd] in *;
    unfold events_since.
  - await_send; [await_send; [await_send|]|];
      repeat (case_bool_decide; cbv beta iota); try await_send;
      unfold ret; cbn [snd trace record];
      rewrite Hes, <- !app_assoc, drop_app_length, call_arguments_sent_app, Hsilent;
      cbn; repeat constructor.
  - rewrite Hes, drop_app_length, Hsilent. constructor.
Qed.

(** C4. Once the session is there and the host has answered
    [Runtime.enable] and the evaluation of [window], [executeScript]
    passes its arguments to the script: it sends a
    [Runtime.callFunctionOn] whose arguments are those of the call, one
    for one and in order, each marshalled by its kind: a string, a
    number or a boolean by value; an object (truthy and of [typeof]
    ['object'], so neither [null] nor a function) that has the
    element-reference key, own or inherited, by the object id stored
    under that key; anything else as the value
    [undefined].  A second [Runtime.callFunctionOn], when there is one,
    carries the same arguments. *)
Theorem executeScript_marshals_arguments
    (page : Page) (script : string) (args : list JSValue)
    (w w0 : World) (cdpSession : CDPSession) (window : RemoteObject) :
  cdp.getCDPSession page w = (Returned cdpSession, w0) ->
  host_send (trace w0) cdpSession Runtime_enable = Some tt ->
  host_send (trace w0 ++ [Send cdpSession Runtime_enable]) cdpSession
    (Runtime_evaluate "window") = Some window ->
  exists passed later,
    call_arguments_sent (events_since w0 (snd (cdp.executeScript page script args w)))
    = passed :: later
    /\ Forall2 Marshalled args passed
    /\ Forall (fun again => again = passed) later.
Proof.
  intros Hget Henable Hwindow.
  change (trace w0 ++ [Send cdpSession Runtime_enable])
    with (trace (record (Send cdpSession Runtime_enable) w0)) in Hwindow.
  exists (map cdp.marshal_argument args).
  assert (Hall : Forall2 Marshalled args (map cdp.marshal_argument args)).
  { clear. induction args as [|arg args IH]; constructor;
      [apply marshal_argument_marshalled | exact IH]. }
  unfold cdp.executeScript.
  await_with Hget.
  await_with (send_answered _ _ _ _ Henable).
  await_with (send_answered _ _ _ _ Hwindow).
  unfold events_since.
  await_send; repeat (case_bool_decide; cbv beta iota); try await_send;
    unfold ret; cbn [snd trace record]; rewrite <- !app_assoc, drop_app_length;
    cbn [app call_arguments_sent omap list_omap];
    eexists; (split; [reflexivity|]); (split; [exact Hall|]); repeat constructor.
Qed.

(** C10. Once the session is there and the host has answered
    [Runtime.enable], the evaluation of [window] and the first
    [Runtime.callFunctionOn], [executeScript] issues a second
    [Runtime.callFunctionOn] with the same object, function
    declaration and arguments (and [returnByValue]) exactly when the
    class name of the first result is neither ['NodeList'] nor
    ['HTMLHtmlElement']: the script is then invoked twice, and once
    otherwise. *)
Theorem executeScript_second_evaluation
    (page : Page) (script : string) (args : list JSValue)
    (w w0 : World) (cdpSession : CDPSession) (window returnedRef : RemoteObject) :
  let functionDeclaration := "function() { " +:+ script +:+ " }" in
  let functionArgs := map cdp.marshal_argument args in
  let enable := Send cdpSession Runtime_enable in
  let evaluate := Send cdpSession (Runtime_evaluate "window") in
  let call returnByValue :=
    Runtime_callFunctionOn (remote_objectId window) functionDeclaration functionArgs
      returnByValue in
  let once :=
    bool_decide (className returnedRef = Some "NodeList")
    || bool_decide (className returnedRef = Some "HTMLHtmlElement") in
  cdp.getCDPSession page w = (Returned cdpSession, w0) ->
  host_send (trace w0) cdpSession Runtime_enable = Some tt ->
  host_send (trace w0 ++ [enable]) cdpSession (Runtime_evaluate "window") = Some window ->
  host_send (trace w0 ++ [enable; evaluate]) cdpSession (call None) = Some returnedRef ->
  events_since w0 (snd (cdp.executeScript page script args w))
  = [enable; evaluate; Send cdpSession (call None)]
    ++ (if bool_decide (className returnedRef = Some "NodeList") then
          [Send cdpSession (Runtime_getProperties (remote_objectId returnedRef) true)]
        else if bool_decide (className returnedRef = Some "HTMLHtmlElement") then []
        else [Send cdpSession (call (Some true))])
  /\ length (call_arguments_sent
               (events_since w0 (snd (cdp.executeScript page script args w))))
     = if once then 1 else 2.
Proof.
  cbv zeta. intros Hget Henable Hwindow Hcall.
  change (trace w0 ++ [Send cdpSession Runtime_enable])
    with (trace (record (Send cdpSession Runtime_enable) w0)) in Hwindow.
  change (trace w0 ++ [Send cdpSession Runtime_enable;
                        Send cdpSession (Runtime_evaluate "window")])
    with (trace w0 ++ ([Send cdpSession Runtime_enable]
                        ++ [Send cdpSession (Runtime_evaluate "window")])) in Hcall.
  rewrite app_assoc in Hcall.
  change ((trace w0 ++ [Send cdpSession Runtime_enable])
            ++ [Send cdpSession (Runtime_evaluate "window")])
    with (trace (record (Send cdpSession (Runtime_evaluate "window"))
                   (record (Send cdpSession Runtime_enable) w0))) in Hcall.
  assert (Hrun :
    events_since w0 (snd (cdp.executeScript page script args w))
    = [Send cdpSession Runtime_enable; Send cdpSession (Runtime_evaluate "window");
       Send cdpSession
         (Runtime_callFunctionOn (remote_objectId window)
            ("function() { " +:+ script +:+ " }") (map cdp.marshal_argument args) None)]
      ++ (if bool_decide (className returnedRef = Some "NodeList") then
            [Send cdpSession (Runtime_getProperties (remote_objectId returnedRef) true)]
          else if bool_decide (className returnedRef = Some "HTMLHtmlElement") then []
          else [Send cdpSession
                  (Runtime_callFunctionOn (remote_objectId window)
                     ("function() { " +:+ script +:+ " }")
                     (map cdp.marshal_argument args) (Some true))])).
  { unfold cdp.executeScript.
    await_with Hget.
    await_with (send_answered _ _ _ _ Henable).
    await_with (send_answered _ _ _ _ Hwindow).
    await_with (send_answered _ _ _ _ Hcall).
    unfold events_since.
    repeat (case_bool_decide; cbv beta iota); try await_send;
      unfold ret; cbn [snd trace record]; rewrite <- !app_assoc, drop_app_length;
      reflexivity. }
  split; [exact Hrun|]. rewrite Hrun.
  repeat case_bool_decide; reflexivity.
Qed.

End ExecuteScript.

Lemma executeScript_marshals_arguments_witness :
  (exists passed later,
     call_arguments_sent
       (events_since sample_world
          (snd (cdp.executeScript (config := sample_config) (builtins := sample_builtins)
                  (host := sample_host) 0 "return arguments.length" sample_arguments
                  initial_world)))
     = passed :: later
     /\ Forall2 (Marshalled (config := sample_config)) sample_arguments passed
     /\ Forall (fun again => again = passed) later)
  /\ call_arguments_sent
       (events_since sample_world
          (snd (cdp.executeScript (config := sample_config) (builtins := sample_builtins)
                  (host := sample_host) 0 "return arguments.length" sample_arguments
                  initial_world)))
     = [[ByValue (JSString "a"); ByValue (JSNumber 1%float); ByValue (JSBoolean true);
         ByObjectId (JSString "node-9");
         ByValue JSUndefined; ByValue JSUndefined; ByValue JSUndefined];
        [ByValue (JSString "a"); ByValue (JSNumber 1%float); ByValue (JSBoolean true);
         ByObjectId (JSString "node-9");
         ByValue JSUndefined; ByValue JSUndefined; ByValue JSUndefined]].
Proof.
  split; [| reflexivity].
  exact (executeScript_marshals_arguments (config := sample_config)
           (builtins := sample_builtins) (host := sample_host)
           0 "return arguments.length" sample_arguments initial_world sample_world 0
           (sample_object (Some "Window") "window" JSUndefined)
           eq_refl eq_refl eq_refl).
Defined.

Lemma executeScript_second_evaluation_witness :
  let call returnByValue :=
    Runtime_callFunctionOn (Some "window") "function() { return 1 }" [] returnByValue in
  events_since sample_world
    (snd (cdp.executeScript (config := sample_config) (builtins := sample_builtins)
            (host := sample_host) 0 "return 1" [] initial_world))
  = [Send 0 Runtime_enable; Send 0 (Runtime_evaluate "window");
     Send 0 (call None); Send 0 (call (Some true))]
  /\ length (call_arguments_sent
               (events_since sample_world
                  (snd (cdp.executeScript (config := sample_config)
                          (builtins := sample_builtins) (host := sample_host)
                          0 "return 1" [] initial_world))))
     = 2.
Proof.
  exact (executeScript_second_evaluation (config := sample_config)
           (builtins := sample_builtins) (host := sample_host)
           0 "return 1" [] initial_world sample_world 0
           (sample_object (Some "Window") "window" JSUndefined)
           {| className := None; remote_objectId := None;
              remote_value := JSNumber 42%float |}
           eq_refl eq_refl eq_refl eq_refl).
Defined.

(** ** Reading an attribute *)

Section GetElementAttribute.
Context {host : Host}.

Lemma attribute_scan_element_after attributes name n :
  forall i,
    i + n = length attributes ->
    cdp.attribute_scan attributes name i n = element_after name (drop i attributes).
Proof.
  induction n as [|n IH]; intros i Hlen.
  - rewrite drop_ge by lia. reflexivity.
  - destruct (lookup_lt_is_Some_2 attributes i) as [a Ha]; [lia|].
    rewrite (drop_S _ _ _ Ha). cbn [cdp.attribute_scan element_after].
    rewrite Ha. rewrite IH by lia.
    replace (i + 1) with (S i) by lia.
    destruct (decide (a = name)) as [->|Hne].
    + rewrite !bool_decide_eq_true_2 by done.
      by rewrite head_lookup, lookup_drop, Nat.add_0_r.
    + rewrite !bool_decide_eq_false_2 by congruence. reflexivity.
Qed.

(** What the loop computes: the element that follows the first element
    of the array equal to [name], whether that element stands at a
    name position or at a value position. *)
Lemma attribute_scan_first_occurrence attributes name :
  cdp.attribute_scan attributes name 0 (length attributes)
  = element_after name attributes.
Proof. by rewrite attribute_scan_element_after. Qed.

Lemma pair_induction (P : list string -> Prop) :
  P [] -> (forall a, P [a]) -> (forall a b l, P l -> P (a :: b :: l)) ->
  forall l, P l.
Proof.
  intros Hnil Hone Hstep l.
  enough (P l /\ forall a, P (a :: l)) by tauto.
  induction l as [|b l [IH IH']]; split; auto.
Qed.

(** The loop agrees with the specification's lookup on every array in
    which no attribute value equals the requested name. *)
Lemma attribute_scan_agrees attributes name :
  name ∉ attribute_values attributes ->
  cdp.attribute_scan attributes name 0 (length attributes)
  = spec_attribute_value attributes name.
Proof.
  rewrite attribute_scan_first_occurrence.
  induction attributes as [|a|a b l IH] using pair_induction; intros Hv.
  - reflexivity.
  - cbn. by case_bool_decide.
  - cbn [element_after spec_attribute_value attribute_values head] in *.
    apply not_elem_of_cons in Hv as [Hb Hl].
    case_bool_decide; [reflexivity|].
    rewrite bool_decide_eq_false_2 by congruence. by apply IH.
Qed.

(** When the requested name occurs nowhere in the array the result is
    [undefined]. *)
Lemma attribute_scan_not_found attributes name :
  name ∉ attributes ->
  cdp.attribute_scan attributes name 0 (length attributes) = None.
Proof.
  rewrite attribute_scan_first_occurrence.
  induction attributes as [|a l IH]; [reflexivity|].
  intros [Ha Hl]%not_elem_of_cons. cbn.
  rewrite bool_decide_eq_false_2 by congruence. by apply IH.
Qed.

(** The example of the claim: attributes [[id, "foo"]], name [id]. *)
Lemma attribute_scan_id_foo : cdp.attribute_scan ["id"; "foo"] "id" 0 2 = Some "foo".
Proof. reflexivity. Qed.

Lemma getElementAttribute_scans page id name w w0 cdpSession nodeId attributes :
  cdp.getCDPSession page w = (Returned cdpSession, w0) ->
  host_send (trace w0) cdpSession (DOM_requestNode id) = Some nodeId ->
  host_send (trace w0 ++ [Send cdpSession (DOM_requestNode id)]) cdpSession
    (DOM_getAttributes nodeId) = Some attributes ->
  fst (cdp.getElementAttribute page id name w) = Returned (element_after name attributes).
Proof.
  intros Hget Hnode Hattrs. unfold cdp.getElementAttribute.
  await_with Hget.
  await_with (send_answered _ _ _ _ Hnode).
  change (trace w0 ++ [Send cdpSession (DOM_requestNode id)])
    with (trace (record (Send cdpSession (DOM_requestNode id)) w0)) in Hattrs.
  await_with (send_answered _ _ _ _ Hattrs).
  cbn. by rewrite attribute_scan_first_occurrence.
Qed.

End GetElementAttribute.

(** C7, where the code departs from it.  For the element
    [<div class="id" id="foo">] the protocol answers
    [["class"; "id"; "id"; "foo"]]; asked for the attribute [id],
    [getElementAttribute] returns ["id"], the name that follows the value
    of [class], where the value that follows the matching name is
    ["foo"]. *)
Theorem getElementAttribute_value_taken_for_name :
  fst (cdp.getElementAttribute (host := sample_host) 0 "node-1" "id" initial_world)
  = Returned (Some "id")
  /\ spec_attribute_value ["class"; "id"; "id"; "foo"] "id" = Some "foo".
Proof. split; reflexivity. Qed.

(** ** Scrolling the page *)

Lemma scroll_range_end_not_negative (e : Element) :
  (scroll_range_end e <? 0)%float = false.
Proof.
  unfold scroll_range_end.
  by destruct (scrollHeight e - clientHeight e <? 0)%float eqn:Hroom.
Qed.

(** Scrolling to 0 leaves the position at 0, whatever the heights. *)
Lemma scrolled_to_zero (e : Element) : scrolled_to e 0%float = 0%float.
Proof.
  unfold scrolled_to, clamp_scroll.
  change (normalize_non_finite 0%float) with 0%float.
  change (0 <? 0)%float with false. cbv iota.
  by rewrite scroll_range_end_not_negative.
Qed.

(** A position that can be reached is the one scrolled to. *)
Lemma scrolled_to_reachable (e : Element) (y : number) :
  reachable e y = true -> scrolled_to e y = y.
Proof.
  unfold reachable, scrolled_to, clamp_scroll, normalize_non_finite.
  destruct (PrimFloat.is_finite y); [|done]. cbn [andb].
  destruct (y <? 0)%float; [done|]. cbn [andb negb].
  by destruct (scroll_range_end e <? y)%float.
Qed.

(** A finite position past the end of the range stops at the end. *)
Lemma scrolled_to_past_end (e : Element) (y : number) :
  PrimFloat.is_finite y = true ->
  (y <? 0)%float = false ->
  (scroll_range_end e <? y)%float = true ->
  scrolled_to e y = scroll_range_end e.
Proof.
  intros Hfinite Hlow Hhigh.
  unfold scrolled_to, clamp_scroll, normalize_non_finite.
  by rewrite Hfinite, Hlow, Hhigh.
Qed.

(** A position before the start of the range stops at 0. *)
Lemma scrolled_to_before_start (e : Element) (y : number) :
  PrimFloat.is_finite y = true ->
  (y <? 0)%float = true ->
  scrolled_to e y = 0%float.
Proof.
  intros Hfinite Hlow.
  unfold scrolled_to, clamp_scroll, normalize_non_finite.
  by rewrite Hfinite, Hlow.
Qed.

Lemma call_on_element_run (method : Element -> Element) (w : Window) (element : nat) :
  actions.elementToScroll w = Some element ->
  actions.call_on_element method w
  = (Returned tt, update_element element method w).
Proof. intros He. unfold actions.call_on_element. by rewrite He. Qed.

Lemma update_element_same (element : nat) (method : Element -> Element) (w : Window) :
  elements (update_element element method w) element = method (elements w element).
Proof. cbn [update_element elements]. by rewrite Nat.eqb_refl. Qed.

Lemma update_element_other (element other : nat) (method : Element -> Element)
    (w : Window) :
  other <> element ->
  elements (update_element element method w) other = elements w other.
Proof.
  intros Hother. cbn [update_element elements].
  by apply Nat.eqb_neq in Hother as ->.
Qed.

(** What a supported target does to the window, as one equation. *)
Lemma scrollPage_supported (w : Window) (element : nat) :
  actions.elementToScroll w = Some element ->
  let distance := (0.75 * default 720 (visualViewport w))%float in
  actions.scrollPage "top" w
  = (Returned tt, update_element element (Element_scrollTo 0%float) w)
  /\ actions.scrollPage "bottom" w
     = (Returned tt,
        update_element element (fun e => Element_scrollTo (scrollHeight e) e) w)
  /\ actions.scrollPage "up" w
     = (Returned tt, update_element element (Element_scrollBy (- distance)%float) w)
  /\ actions.scrollPage "down" w
     = (Returned tt, update_element element (Element_scrollBy distance) w).
Proof.
  intros He. cbv zeta. unfold actions.scrollPage.
  cbn [String.eqb Ascii.eqb Bool.eqb].
  by rewrite !(call_on_element_run _ _ _ He).
Qed.

Lemma scrollPage_unsupported (w : Window) (target : string) :
  target ∉ ["top"; "bottom"; "up"; "down"] ->
  actions.scrollPage target w
  = (Thrown (Error ("Unsupported scroll target " +:+ target)), w).
Proof.
  intros Ht. rewrite !not_elem_of_cons in Ht.
  destruct Ht as (Htop & Hbottom & Hup & Hdown & _).
  apply String.eqb_neq in Htop, Hbottom, Hup, Hdown.
  unfold actions.scrollPage. by rewrite Htop, Hbottom, Hup, Hdown.
Qed.

(** C8 (amended). Let [element] be the element that [scrollPage]
    scrolls: [document.scrollingElement], or [document.body] when there
    is none; and let [h] be the height of the visual viewport.  With the
    browser scrolling as the CSSOM View module says:
    - each of ['top'], ['bottom'], ['up'] and ['down'] returns, keeps
      the heights of the element and leaves every other element alone;
    - ['top'] leaves [scrollTop] at 0;
    - ['bottom'] asks for [scrollHeight], and [scrollTop] ends at
      [scrollHeight] only if that position can be reached; when it lies
      past the end of the scroll range, [scrollTop] ends at the end of
      the range, [scrollHeight - clientHeight];
    - ['up'] asks for [scrollTop - 0.75 * h] and ['down'] for
      [scrollTop + 0.75 * h]: [scrollTop] changes by exactly that
      distance only if the position asked for can be reached, and stops
      at 0, respectively at the end of the range, if it lies outside;
    - any other target throws the error that names it and leaves the
      window, and so every scroll position, as it was. *)
Theorem scrollPage_scroll_positions (w : Window) (h : number) (element : nat) :
  visualViewport w = Some h ->
  actions.elementToScroll w = Some element ->
  let before := elements w element in
  let distance := (0.75 * h)%float in
  let after target := elements (snd (actions.scrollPage target w)) element in
  (forall target,
     target ∈ ["top"; "bottom"; "up"; "down"] ->
     fst (actions.scrollPage target w) = Returned tt
     /\ scrollHeight (after target) = scrollHeight before
     /\ clientHeight (after target) = clientHeight before
     /\ forall other,
          other <> element ->
          elements (snd (actions.scrollPage target w)) other = elements w other)
  /\ scrollTop (after "top") = 0%float
  /\ scrollTop (after "bottom") = scrolled_to before (scrollHeight before)
  /\ (reachable before (scrollHeight before) = true ->
      scrollTop (after "bottom") = scrollHeight before)
  /\ (PrimFloat.is_finite (scrollHeight before) = true ->
      (scrollHeight before <? 0)%float = false ->
      (scroll_range_end before <? scrollHeight before)%float = true ->
      scrollTop (after "bottom") = scroll_range_end before)
  /\ scrollTop (after "up") = scrolled_by before (- distance)%float
  /\ scrollTop (after "down") = scrolled_by before distance
  /\ (PrimFloat.is_finite (- distance)%float = true ->
      reachable before (scrollTop before + - distance)%float = true ->
      scrollTop (after "up") = (scrollTop before + - distance)%float)
  /\ (PrimFloat.is_finite (- distance)%float = true ->
      PrimFloat.is_finite (scrollTop before + - distance)%float = true ->
      (scrollTop before + - distance <? 0)%float = true ->
      scrollTop (after "up") = 0%float)
  /\ (PrimFloat.is_finite distance = true ->
      reachable before (scrollTop before + distance)%float = true ->
      scrollTop (after "down") = (scrollTop before + distance)%float)
  /\ (PrimFloat.is_finite distance = true ->
      PrimFloat.is_finite (scrollTop before + distance)%float = true ->
      (scrollTop before + distance <? 0)%float = false ->
      (scroll_range_end before <? scrollTop before + distance)%float = true ->
      scrollTop (after "down") = scroll_range_end before)
  /\ (forall target,
        target ∉ ["top"; "bottom"; "up"; "down"] ->
        actions.scrollPage target w
        = (Thrown (Error ("Unsupported scroll target " +:+ target)), w)).
Proof.
  intros Hh He. cbv zeta.
  destruct (scrollPage_supported w element He) as (Htop & Hbottom & Hup & Hdown).
  rewrite Hh in Hup, Hdown. cbn [default from_option] in Hup, Hdown.
  unfold id in Hup, Hdown.
  split.
  { intros target Ht. rewrite !elem_of_cons in Ht.
    destruct Ht as [->|[->|[->|[->|Ht]]]]; [| | | |by apply elem_of_nil in Ht].
    - rewrite Htop. cbn [fst snd]. rewrite update_element_same.
      do 3 (split; [done|]). intros other Hother. by apply update_element_other.
    - rewrite Hbottom. cbn [fst snd]. rewrite update_element_same.
      do 3 (split; [done|]). intros other Hother. by apply update_element_other.
    - rewrite Hup. cbn [fst snd]. rewrite update_element_same.
      do 3 (split; [done|]). intros other Hother. by apply update_element_other.
    - rewrite Hdown. cbn [fst snd]. rewrite update_element_same.
      do 3 (split; [done|]). intros other Hother. by apply update_element_other. }
  rewrite Htop, Hbottom, Hup, Hdown. cbn [snd]. rewrite !update_element_same.
  cbn [scrollTop Element_scrollTo Element_scrollBy].
  split; [apply scrolled_to_zero|].
  split; [done|].
  split; [apply scrolled_to_reachable|].
  split; [apply scrolled_to_past_end|].
  split; [done|].
  split; [done|].
  split.
  { intros Hfinite Hreach. unfold scrolled_by, normalize_non_finite.
    rewrite Hfinite. by apply scrolled_to_reachable. }
  split.
  { intros Hfinite Hsum Hlow. unfold scrolled_by, normalize_non_finite.
    rewrite Hfinite. by apply scrolled_to_before_start. }
  split.
  { intros Hfinite Hreach. unfold scrolled_by, normalize_non_finite.
    rewrite Hfinite. by apply scrolled_to_reachable. }
  split.
  { intros Hfinite Hsum Hlow Hhigh. unfold scrolled_by, normalize_non_finite.
    rewrite Hfinite. by apply scrolled_to_past_end. }
  apply scrollPage_unsupported.
Qed.

(** Without a visual viewport the relative scrolls fall back on a
    height of 720, so on a distance of 540. *)
Lemma scrollPage_default_viewport (w : Window) (element : nat) :
  visualViewport w = None ->
  actions.elementToScroll w = Some element ->
  scrollTop (elements (snd (actions.scrollPage "down" w)) element)
  = scrolled_by (elements w element) 540%float
  /\ scrollTop (elements (snd (actions.scrollPage "up" w)) element)
     = scrolled_by (elements w element) (-540)%float.
Proof.
  intros Hh He.
  destruct (scrollPage_supported w element He) as (_ & _ & Hup & Hdown).
  rewrite Hh in Hup, Hdown. rewrite Hup, Hdown. cbn [snd].
  rewrite !update_element_same. split; reflexivity.
Qed.

(** From a scroll position of 100 in a viewport 800 high, with content
    5000 high in a box 800 high: ['top'] gives 0, ['bottom'] the end of
    the range 4200, ['up'] stops at 0, ['down'] gives 100 + 600, and
    ['left'] throws. *)
Lemma scrollPage_scroll_positions_witness :
  scrollTop (elements (snd (actions.scrollPage "top" sample_window)) 1) = 0%float
  /\ scrollTop (elements (snd (actions.scrollPage "bottom" sample_window)) 1)
     = 4200%float
  /\ scrollTop (elements (snd (actions.scrollPage "up" sample_window)) 1) = 0%float
  /\ scrollTop (elements (snd (actions.scrollPage "down" sample_window)) 1)
     = 700%float
  /\ actions.scrollPage "left" sample_window
     = (Thrown (Error "Unsupported scroll target left"), sample_window).
Proof.
  destruct (scrollPage_scroll_positions sample_window 800%float 1 eq_refl eq_refl)
    as (_ & Htop & _ & _ & Hbottom & _ & _ & _ & Hup & Hdown & _ & Hother).
  split; [exact Htop|].
  split; [exact (Hbottom eq_refl eq_refl eq_refl)|].
  split; [exact (Hup eq_refl eq_refl eq_refl)|].
  split; [exact (Hdown eq_refl eq_refl)|].
  apply Hother. rewrite !not_elem_of_cons. repeat split; try discriminate.
  apply not_elem_of_nil.
Defined.

(** On that page ['bottom'] leaves [scrollTop] at 4200, not at the
    scroll height 5000; and ['up'], 75% of the viewport height being
    600, moves the position from 100 to 0, by 100. *)
Lemma scrollPage_bottom_stops_before_scrollHeight :
  scrollHeight (elements sample_window 1) = 5000%float
  /\ scrollTop (elements (snd (actions.scrollPage "bottom" sample_window)) 1)
     = 4200%float
  /\ scrollTop (elements sample_window 1) = 100%float
  /\ (0.75 * 800)%float = 600%float
  /\ scrollTop (elements (snd (actions.scrollPage "up" sample_window)) 1) = 0%float.
Proof. repeat split; reflexivity. Qed.

(** ** Content quads *)

Section ContentQuads.
Context {host : Host}.

(** C9. When the protocol answers [DOM.getContentQuads] with corners
    [(x0,y0), (x1,y1), (x2,y2), (x3,y3)] for the first quad,
    [getContentQuads] returns them with [width = x1 - x0],
    [height = y2 - y1], [centerX = x0 + width / 2] and
    [centerY = y1 + height / 2], in JS arithmetic. *)
Theorem getContentQuads_geometry
    (page : Page) (args : NodeSelector) (w w0 : World) (cdpSession : CDPSession)
    (x0 y0 x1 y1 x2 y2 x3 y3 : number) (others : list (list number)) :
  cdp.getCDPSession page w = (Returned cdpSession, w0) ->
  host_send (trace w0) cdpSession (DOM_getContentQuads args)
  = Some ([x0; y0; x1; y1; x2; y2; x3; y3] :: others) ->
  exists quads,
    cdp.getContentQuads page args w
    = (Returned quads, record (Send cdpSession (DOM_getContentQuads args)) w0)
    /\ cdp.width quads = (x1 - x0)%float
    /\ cdp.height quads = (y2 - y1)%float
    /\ cdp.centerX quads = (x0 + cdp.width quads / 2)%float
    /\ cdp.centerY quads = (y1 + cdp.height quads / 2)%float
    /\ (cdp.topLeftX quads, cdp.topLeftY quads) = (Some x0, Some y0)
    /\ (cdp.topRightX quads, cdp.topRightY quads) = (Some x1, Some y1)
    /\ (cdp.bottomRightX quads, cdp.bottomRightY quads) = (Some x2, Some y2)
    /\ (cdp.bottomLeftX quads, cdp.bottomLeftY quads) = (Some x3, Some y3).
Proof.
  intros Hget Hquads. eexists. split.
  - unfold cdp.getContentQuads.
    await_with Hget.
    await_with (send_answered _ _ _ _ Hquads).
    reflexivity.
  - repeat split.
Qed.

End ContentQuads.

(** The quad of the claim: corners (0,0), (10,0), (10,20), (0,20) give
    the center (5,10), the width 10 and the height 20. *)
Lemma getContentQuads_geometry_witness :
  exists quads,
    fst (cdp.getContentQuads (host := sample_host) 0 (by_backendNodeId 7%float)
           initial_world) = Returned quads
    /\ (cdp.centerX quads, cdp.centerY quads) = (5%float, 10%float)
    /\ (cdp.width quads, cdp.height quads) = (10%float, 20%float).
Proof.
  destruct (getContentQuads_geometry (host := sample_host) 0 (by_backendNodeId 7%float)
              initial_world sample_world 0
              0%float 0%float 10%float 0%float 10%float 20%float 0%float 20%float []
              eq_refl eq_refl)
    as (quads & Hrun & Hw & Hh & Hx & Hy & _).
  exists quads. rewrite Hrun. split; [reflexivity|].
  rewrite Hx, Hy, Hw, Hh. split; reflexivity.
Defined.

(** The sample host at work: page [0] gets session [0]; asking again,
    also after page [1] got its own session, gives session [0]; after
    the detach the next request gives a session that was not there
    before. *)
Lemma getCDPSession_memoizes_witness :
  cdp.getCDPSession (host := sample_host) 0 initial_world = (Returned 0, sample_world)
  /\ fst (cdp.getCDPSession (host := sample_host) 0
            (run_ops (host := sample_host) [GetSession 1; GetSession 0] sample_world))
     = Returned 0
  /\ exists w3 w4,
       cdp.detachCPDSession (host := sample_host) 0
         (run_ops (host := sample_host) [GetSession 1] sample_world)
       = (Returned tt, w3)
       /\ cdp.getCDPSession (host := sample_host) 0 w3 = (Returned 2, w4).
Proof.
  destruct (getCDPSession_memoizes (host := sample_host) 0 initial_world eq_refl eq_refl)
    as (session & w1 & Hfirst & _ & _ & Hlater & Hdetach).
  assert (Hrun : cdp.getCDPSession (host := sample_host) 0 initial_world
                 = (Returned 0, sample_world)) by reflexivity.
  rewrite Hrun in Hfirst. injection Hfirst as <- <-.
  split; [exact Hrun|]. split.
  - rewrite (Hlater [GetSession 1; GetSession 0]); [reflexivity|].
    repeat constructor; discriminate.
  - destruct (Hdetach [GetSession 1]
                (snd (cdp.detachCPDSession (host := sample_host) 0
                        (run_ops (host := sample_host) [GetSession 1] sample_world)))
                eq_refl eq_refl)
      as (session' & w4 & Hnext & _ & _ & Hcount).
    exists (snd (cdp.detachCPDSession (host := sample_host) 0
                   (run_ops (host := sample_host) [GetSession 1] sample_world))), w4.
    split; [reflexivity|].
    rewrite Hnext. f_equal. f_equal.
    pose proof (getCDPSession_created (host := sample_host) 0
                  (snd (cdp.detachCPDSession (host := sample_host) 0
                          (run_ops (host := sample_host) [GetSession 1] sample_world)))
                  eq_refl eq_refl) as Hcreated.
    rewrite Hcreated in Hnext. by injection Hnext as <- _.
Defined.


(** * Further properties of the code *)

(** ** The session cache, on rejection and across pages *)

Section SessionEdges.
Context {host : Host}.

(** X1. [getCDPSession] either returns the session that the cache now
    holds for the page, or rejects with the host's protocol error, in
    which case the page had no session and neither the cache nor the
    attached sessions have changed: a failed creation leaves nothing
    behind, and the function never yields [undefined]. *)
Theorem getCDPSession_outcome (page : Page) (w : World) :
  match cdp.getCDPSession page w with
  | (Returned session, w') => cdpSessionByPage w' !! page = Some session
  | (Thrown e, w') =>
      e = ProtocolError
      /\ cdpSessionByPage w !! page = None
      /\ cdpSessionByPage w' = cdpSessionByPage w
      /\ attached w' = attached w
  end.
Proof.
  destruct (cdpSessionByPage w !! page) as [s|] eqn:Hc.
  - by rewrite (getCDPSession_cached _ _ _ Hc).
  - destruct (host_newCDPSession (trace w) page) eqn:Hh.
    + rewrite (getCDPSession_created _ _ Hc Hh). cbn. apply lookup_insert_eq.
    + by rewrite (getCDPSession_rejected _ _ Hc Hh).
Qed.

(** X2. After any sequence of session operations, two different page
    handles never hold the same session. *)
Theorem pages_do_not_share_a_session
    (ops : list SessionOp) (page1 page2 : Page) (session1 session2 : CDPSession) :
  page1 <> page2 ->
  cdpSessionByPage (run_ops ops initial_world) !! page1 = Some session1 ->
  cdpSessionByPage (run_ops ops initial_world) !! page2 = Some session2 ->
  session1 <> session2.
Proof.
  intros Hp H1 H2 ->.
  destruct (run_ops_consistent ops initial_world initial_world_consistent) as [Hiff _].
  apply Hiff in H1, H2. congruence.
Qed.

(** X3. When the host rejects [detach], [detachCPDSession] rejects and
    the cache keeps the session: the next [getCDPSession] for the page
    returns that same session and asks the host for nothing. *)
Theorem rejected_detach_keeps_session (page : Page) (session : CDPSession) (w : World) :
  cdpSessionByPage w !! page = Some session ->
  host_detach (trace w) session = false ->
  exists w',
    cdp.detachCPDSession page w = (Thrown ProtocolError, w')
    /\ events_since w w' = [Detach session]
    /\ cdp.getCDPSession page w' = (Returned session, w').
Proof.
  intros Hc Hh. eexists. split; [by apply detachCPDSession_rejected|].
  split.
  - unfold events_since. cbn. by rewrite drop_app_length.
  - by apply getCDPSession_cached.
Qed.

(** X4. Detaching is idempotent: once [detachCPDSession] has completed
    for a page, doing it again completes at once, without any host call
    and without any change. *)
Theorem detachCPDSession_idempotent (page : Page) (w w1 : World) :
  cdp.detachCPDSession page w = (Returned tt, w1) ->
  cdp.detachCPDSession page w1 = (Returned tt, w1).
Proof.
  intros [Hc _]%detachCPDSession_returned. by apply detachCPDSession_absent.
Qed.

End SessionEdges.

Lemma pages_do_not_share_a_session_witness :
  (cdpSessionByPage
     (run_ops (host := sample_host) [GetSession 4; GetSession 9] initial_world) !! 4
   = Some 0
   /\ cdpSessionByPage
        (run_ops (host := sample_host) [GetSession 4; GetSession 9] initial_world) !! 9
      = Some 1)
  /\ 0 <> 1.
Proof.
  split; [split; reflexivity|].
  apply (pages_do_not_share_a_session (host := sample_host)
           [GetSession 4; GetSession 9] 4 9 0 1);
    [discriminate | reflexivity | reflexivity].
Defined.

Lemma rejected_detach_keeps_session_witness :
  exists w',
    cdp.detachCPDSession (host := refusing_host) 0 sample_world
    = (Thrown ProtocolError, w')
    /\ events_since sample_world w' = [Detach 0]
    /\ cdp.getCDPSession (host := refusing_host) 0 w' = (Returned 0, w').
Proof.
  exact (rejected_detach_keeps_session (host := refusing_host) 0 0 sample_world
           eq_refl eq_refl).
Defined.

Lemma detachCPDSession_idempotent_witness :
  cdp.detachCPDSession (host := sample_host) 0
    (snd (cdp.detachCPDSession (host := sample_host) 0 sample_world))
  = (Returned tt, snd (cdp.detachCPDSession (host := sample_host) 0 sample_world)).
Proof.
  exact (detachCPDSession_idempotent (host := sample_host) 0 sample_world _ eq_refl).
Defined.

(** ** Querying elements *)

Section QuerySelectorAll.
Context {config : Config} {host : Host}.

(** The resolutions are all sent, answered or not. *)
Lemma Promise_all_map_resolve_world session nodeIds w :
  snd (Promise_all_map (fun nodeId => cdp.send session (DOM_resolveNode nodeId)) nodeIds w)
  = record_all (map (fun nodeId => Send session (DOM_resolveNode nodeId)) nodeIds) w.
Proof.
  revert w. induction nodeIds as [|nodeId nodeIds IH]; intros w.
  - cbn. by rewrite record_all_nil.
  - cbn [Promise_all_map map].
    destruct (cdp.send session (DOM_resolveNode nodeId) w) as [first w1] eqn:Hfirst.
    assert (Hw1 : w1 = record (Send session (DOM_resolveNode nodeId)) w).
    { unfold cdp.send in Hfirst. destruct (host_send _ _ _); by injection Hfirst. }
    specialize (IH w1).
    destruct (Promise_all_map _ nodeIds w1) as [others w2]. cbn [snd] in *.
    rewrite IH, Hw1. by rewrite record_all_cons.
Qed.

(** When every resolution is answered the result holds one node per id,
    each the host's answer for that id. *)
Lemma Promise_all_map_resolve_answered session nodeIds w :
  always_answers host ->
  exists nodes,
    fst (Promise_all_map (fun nodeId => cdp.send session (DOM_resolveNode nodeId))
           nodeIds w)
    = Returned nodes
    /\ Forall2 (fun nodeId node =>
                  exists t, host_send t session (DOM_resolveNode nodeId) = Some node)
         nodeIds nodes.
Proof.
  intros Hhost. revert w. induction nodeIds as [|nodeId nodeIds IH]; intros w.
  - exists []. split; [reflexivity | constructor].
  - cbn [Promise_all_map].
    destruct (Hhost (trace w) session (DOM_resolveNode nodeId)) as [node Hnode].
    rewrite (send_answered _ _ _ _ Hnode).
    destruct (IH (record (Send session (DOM_resolveNode nodeId)) w))
      as (nodes & Hnodes & Hall).
    destruct (Promise_all_map _ nodeIds _) as [others w2]. cbn [fst] in *.
    subst others. exists (node :: nodes). split; [reflexivity|].
    constructor; [eauto | exact Hall].
Qed.

(** X5. With a supported strategy, once the document and the query are
    answered, [findElements] sends one [DOM.resolveNode] for every node
    id of the answer, in the answer's order, whether or not the host
    answers them: a rejected resolution does not keep the later ones
    from being sent. *)
Theorem findElements_resolves_every_node
    (page : Page) (using_ value : string) (w w0 : World) (cdpSession : CDPSession)
    (root : number) (nodeIds : list number) :
  using_ = "css selector" \/ using_ = "tag name" ->
  value <> "iframe" ->
  cdp.getCDPSession page w = (Returned cdpSession, w0) ->
  host_send (trace w0) cdpSession (DOM_getDocument (-1)) = Some root ->
  host_send (trace w0 ++ [Send cdpSession (DOM_getDocument (-1))]) cdpSession
    (DOM_querySelectorAll root value) = Some nodeIds ->
  events_since w0 (snd (cdp.findElements page using_ value w))
  = [Send cdpSession (DOM_getDocument (-1));
     Send cdpSession (DOM_querySelectorAll root value)]
    ++ map (fun nodeId => Send cdpSession (DOM_resolveNode nodeId)) nodeIds.
Proof.
  intros Hu Hv Hget Hroot Hids.
  rewrite (findElements_supported_strategy _ _ _ _ Hu Hv).
  change (trace w0 ++ [Send cdpSession (DOM_getDocument (-1))])
    with (trace (record (Send cdpSession (DOM_getDocument (-1))) w0)) in Hids.
  unfold cdp.querySelectorAll.
  await_with Hget.
  await_with (send_answered _ _ _ _ Hroot).
  await_with (send_answered _ _ _ _ Hids).
  unfold bind.
  pose proof (Promise_all_map_resolve_world cdpSession nodeIds
                (record (Send cdpSession (DOM_querySelectorAll root value))
                   (record (Send cdpSession (DOM_getDocument (-1))) w0))) as Hall.
  destruct (Promise_all_map _ nodeIds _) as [[nodes|e] w']; cbn [snd] in *;
    rewrite Hall, !record_all_cons; apply events_since_record_all.
Qed.

(** X6. On a host that answers, [findElements] with a supported strategy
    returns one element reference per node id of the query's answer, in
    order, each wrapping the object id of that node's resolution under
    the element key. *)
Theorem findElements_references
    (page : Page) (using_ value : string) (w w0 : World) (cdpSession : CDPSession)
    (root : number) (nodeIds : list number) :
  always_answers host ->
  using_ = "css selector" \/ using_ = "tag name" ->
  value <> "iframe" ->
  cdp.getCDPSession page w = (Returned cdpSession, w0) ->
  host_send (trace w0) cdpSession (DOM_getDocument (-1)) = Some root ->
  host_send (trace w0 ++ [Send cdpSession (DOM_getDocument (-1))]) cdpSession
    (DOM_querySelectorAll root value) = Some nodeIds ->
  exists nodes,
    fst (cdp.findElements page using_ value w)
    = Returned (map (fun node => cdp.element_reference (remote_objectId node)) nodes)
    /\ Forall2 (fun nodeId node =>
                  exists t, host_send t cdpSession (DOM_resolveNode nodeId) = Some node)
         nodeIds nodes.
Proof.
  intros Hhost Hu Hv Hget Hroot Hids.
  rewrite (findElements_supported_strategy _ _ _ _ Hu Hv).
  change (trace w0 ++ [Send cdpSession (DOM_getDocument (-1))])
    with (trace (record (Send cdpSession (DOM_getDocument (-1))) w0)) in Hids.
  unfold cdp.querySelectorAll.
  await_with Hget.
  await_with (send_answered _ _ _ _ Hroot).
  await_with (send_answered _ _ _ _ Hids).
  unfold bind.
  destruct (Promise_all_map_resolve_answered cdpSession nodeIds
              (record (Send cdpSession (DOM_querySelectorAll root value))
                 (record (Send cdpSession (DOM_getDocument (-1))) w0)) Hhost)
    as (nodes & Hnodes & Hall).
  destruct (Promise_all_map _ nodeIds _) as [outcome w']. cbn [fst] in Hnodes.
  subst outcome. exists nodes. split; [reflexivity | exact Hall].
Qed.

End QuerySelectorAll.

Lemma findElements_resolves_every_node_witness :
  events_since sample_world
    (snd (cdp.findElements (config := sample_config) (host := node_list_host)
            0 "tag name" "a" initial_world))
  = [Send 0 (DOM_getDocument (-1));
     Send 0 (DOM_querySelectorAll 1%float "a");
     Send 0 (DOM_resolveNode 2%float);
     Send 0 (DOM_resolveNode 3%float)]
  /\ fst (cdp.findElements (config := sample_config) (host := node_list_host)
            0 "tag name" "a" initial_world)
     = Thrown ProtocolError.
Proof.
  split; [|reflexivity].
  apply (findElements_resolves_every_node (config := sample_config)
           (host := node_list_host) 0 "tag name" "a" initial_world sample_world 0
           1%float [2; 3]%float);
    [by right | discriminate | reflexivity | reflexivity | reflexivity].
Defined.

Lemma findElements_references_witness :
  fst (cdp.findElements (config := sample_config) (host := sample_host)
         0 "css selector" "div" initial_world)
  = Returned
      [cdp.element_reference (config := sample_config) (Some "node");
       cdp.element_reference (config := sample_config) (Some "node")].
Proof.
  destruct (findElements_references (config := sample_config) (host := sample_host)
              0 "css selector" "div" initial_world sample_world 0
              1%float [2; 3]%float sample_host_always_answers
              (or_introl eq_refl))
    as (nodes & Hrun & Hall); [discriminate | reflexivity..|].
  rewrite Hrun.
  apply Forall2_cons_inv_l in Hall as (node1 & nodes1 & [t1 H1] & Hall & ->).
  apply Forall2_cons_inv_l in Hall as (node2 & nodes2 & [t2 H2] & Hall & ->).
  apply Forall2_nil_inv_l in Hall as ->.
  injection H1 as <-. injection H2 as <-. reflexivity.
Defined.

(** ** Missing data *)

Section MissingData.
Context {host : Host}.

(** X7. When the protocol answers [DOM.getContentQuads] with no quad at
    all (an element that is not laid out), [getContentQuads] throws a
    [TypeError] from the destructuring of [quads[0]], after the one
    protocol call; it returns no geometry. *)
Theorem getContentQuads_without_quads
    (page : Page) (args : NodeSelector) (w w0 : World) (cdpSession : CDPSession) :
  cdp.getCDPSession page w = (Returned cdpSession, w0) ->
  host_send (trace w0) cdpSession (DOM_getContentQuads args) = Some [] ->
  cdp.getContentQuads page args w
  = (Thrown TypeError, record (Send cdpSession (DOM_getContentQuads args)) w0).
Proof.
  intros Hget Hquads. unfold cdp.getContentQuads.
  await_with Hget.
  await_with (send_answered _ _ _ _ Hquads).
  reflexivity.
Qed.

(** X8. On every node whose attribute values all differ from the
    requested name, [getElementAttribute] returns the value that follows
    the attribute of that name in the interleaved array, and [undefined]
    when the node has no attribute of that name. *)
Theorem getElementAttribute_pairwise
    (page : Page) (id name : string) (w w0 : World) (cdpSession : CDPSession)
    (nodeId : number) (attributes : list string) :
  cdp.getCDPSession page w = (Returned cdpSession, w0) ->
  host_send (trace w0) cdpSession (DOM_requestNode id) = Some nodeId ->
  host_send (trace w0 ++ [Send cdpSession (DOM_requestNode id)]) cdpSession
    (DOM_getAttributes nodeId) = Some attributes ->
  name ∉ attribute_values attributes ->
  fst (cdp.getElementAttribute page id name w)
  = Returned (spec_attribute_value attributes name)
  /\ (name ∉ attribute_names attributes ->
      fst (cdp.getElementAttribute page id name w) = Returned None).
Proof.
  intros Hget Hnode Hattrs Hvalues.
  rewrite (getElementAttribute_scans _ _ _ _ _ _ _ _ Hget Hnode Hattrs).
  rewrite <- attribute_scan_first_occurrence, (attribute_scan_agrees _ _ Hvalues).
  split; [reflexivity|]. intros Hnames. f_equal. clear -Hnames.
  induction attributes as [|a|a b l IH] using pair_induction; try reflexivity.
  cbn [spec_attribute_value attribute_names] in *.
  apply not_elem_of_cons in Hnames as [Ha Hl].
  rewrite bool_decide_eq_false_2 by congruence. by apply IH.
Qed.

End MissingData.

Lemma getContentQuads_without_quads_witness :
  cdp.getContentQuads (host := node_list_host) 0 (by_backendNodeId 7%float) initial_world
  = (Thrown TypeError,
     record (Send 0 (DOM_getContentQuads (by_backendNodeId 7%float))) sample_world).
Proof.
  exact (getContentQuads_without_quads (host := node_list_host) 0
           (by_backendNodeId 7%float) initial_world sample_world 0 eq_refl eq_refl).
Defined.

(** For [<div class="id" id="foo">]: the attribute [class] is read as
    ["id"], and there is no attribute [href]. *)
Lemma getElementAttribute_pairwise_witness :
  fst (cdp.getElementAttribute (host := sample_host) 0 "node-1" "class" initial_world)
  = Returned (Some "id")
  /\ fst (cdp.getElementAttribute (host := sample_host) 0 "node-1" "href" initial_world)
     = Returned None.
Proof.
  assert (Hvalues : forall name,
            name <> "id" -> name <> "foo" ->
            name ∉ attribute_values ["class"; "id"; "id"; "foo"]).
  { intros name H1 H2. cbn. rewrite !not_elem_of_cons. repeat split; try done.
    apply not_elem_of_nil. }
  split.
  - apply (getElementAttribute_pairwise (host := sample_host) 0 "node-1" "class"
             initial_world sample_world 0 7%float ["class"; "id"; "id"; "foo"]
             eq_refl eq_refl eq_refl).
    by apply Hvalues.
  - apply (getElementAttribute_pairwise (host := sample_host) 0 "node-1" "href"
             initial_world sample_world 0 7%float ["class"; "id"; "id"; "foo"]
             eq_refl eq_refl eq_refl).
    + by apply Hvalues.
    + cbn. rewrite !not_elem_of_cons. repeat split; try done. apply not_elem_of_nil.
Defined.

(** ** What a script returns *)

Section ScriptResults.
Context {config : Config} {builtins : Builtins} {host : Host}.

(** Mapping the properties to references or [null] and dropping the
    [null]s keeps exactly the properties named by a number. *)
Lemma node_list_entries (properties : list PropertyDescriptor) :
  List.filter ToBoolean (map cdp.node_list_entry properties)
  = map (fun e => cdp.element_reference (prop_value e ≫= remote_objectId))
      (List.filter (fun e => negb (PrimFloat.is_nan (parseInt (prop_name e)))) properties).
Proof.
  induction properties as [|e properties IH]; [reflexivity|].
  cbn [map List.filter]. unfold cdp.node_list_entry at 1 2.
  destruct (negb (PrimFloat.is_nan (parseInt (prop_name e)))); cbv iota.
  - change (ToBoolean (cdp.element_reference (prop_value e ≫= remote_objectId)))
      with true.
    cbv iota. cbn [map]. by rewrite IH.
  - change (ToBoolean JSNull) with false. cbv iota. exact IH.
Qed.

(** X9. When the script's result is a [NodeList], [executeScript]
    returns an array with one element reference for each own property
    whose name [parseInt] reads as a number, in the order of the
    properties, and nothing for the other properties (such as
    [length]); a property without a value gives a reference to
    [undefined]. *)
Theorem executeScript_node_list
    (page : Page) (script : string) (args : list JSValue)
    (w w0 : World) (cdpSession : CDPSession) (window returnedRef : RemoteObject)
    (properties : list PropertyDescriptor) :
  let enable := Send cdpSession Runtime_enable in
  let evaluate := Send cdpSession (Runtime_evaluate "window") in
  let call :=
    Runtime_callFunctionOn (remote_objectId window)
      ("function() { " +:+ script +:+ " }") (map cdp.marshal_argument args) None in
  let getProperties := Runtime_getProperties (remote_objectId returnedRef) true in
  cdp.getCDPSession page w = (Returned cdpSession, w0) ->
  host_send (trace w0) cdpSession Runtime_enable = Some tt ->
  host_send (trace w0 ++ [enable]) cdpSession (Runtime_evaluate "window") = Some window ->
  host_send (trace w0 ++ [enable; evaluate]) cdpSession call = Some returnedRef ->
  className returnedRef = Some "NodeList" ->
  host_send (trace w0 ++ [enable; evaluate; Send cdpSession call]) cdpSession
    getProperties = Some properties ->
  fst (cdp.executeScript page script args w)
  = Returned
      (cdp.ResultArray
         (map (fun e => cdp.element_reference (prop_value e ≫= remote_objectId))
            (List.filter
               (fun e => negb (PrimFloat.is_nan (parseInt (prop_name e))))
               properties))).
Proof.
  cbv zeta. intros Hget Henable Hwindow Hcall Hclass Hprops.
  change (trace w0 ++ [Send cdpSession Runtime_enable])
    with (trace (record_all [Send cdpSession Runtime_enable] w0)) in Hwindow.
  match type of Hcall with
  | context [trace w0 ++ ?es] =>
      change (trace w0 ++ es) with (trace (record_all es w0)) in Hcall
  end.
  match type of Hprops with
  | context [trace w0 ++ ?es] =>
      change (trace w0 ++ es) with (trace (record_all es w0)) in Hprops
  end.
  rewrite <- !record_all_cons, record_all_nil in Hwindow.
  rewrite <- !record_all_cons, record_all_nil in Hcall.
  rewrite <- !record_all_cons, record_all_nil in Hprops.
  unfold cdp.executeScript.
  await_with Hget.
  await_with (send_answered _ _ _ _ Henable).
  await_with (send_answered _ _ _ _ Hwindow).
  await_with (send_answered _ _ _ _ Hcall).
  rewrite bool_decide_eq_true_2 by exact Hclass.
  await_with (send_answered _ _ _ _ Hprops).
  cbn [fst ret]. by rewrite node_list_entries.
Qed.

(** X10. When the script's result is the root [<html>] element,
    [executeScript] returns the reference to that result and sends
    nothing after the first call: the script is evaluated once. *)
Theorem executeScript_root_element
    (page : Page) (script : string) (args : list JSValue)
    (w w0 : World) (cdpSession : CDPSession) (window returnedRef : RemoteObject) :
  let enable := Send cdpSession Runtime_enable in
  let evaluate := Send cdpSession (Runtime_evaluate "window") in
  let call :=
    Runtime_callFunctionOn (remote_objectId window)
      ("function() { " +:+ script +:+ " }") (map cdp.marshal_argument args) None in
  cdp.getCDPSession page w = (Returned cdpSession, w0) ->
  host_send (trace w0) cdpSession Runtime_enable = Some tt ->
  host_send (trace w0 ++ [enable]) cdpSession (Runtime_evaluate "window") = Some window ->
  host_send (trace w0 ++ [enable; evaluate]) cdpSession call = Some returnedRef ->
  className returnedRef = Some "HTMLHtmlElement" ->
  cdp.executeScript page script args w
  = (Returned (cdp.ResultValue (cdp.element_reference (remote_objectId returnedRef))),
     record_all [enable; evaluate; Send cdpSession call] w0).
Proof.
  cbv zeta. intros Hget Henable Hwindow Hcall Hclass.
  change (trace w0 ++ [Send cdpSession Runtime_enable])
    with (trace (record_all [Send cdpSession Runtime_enable] w0)) in Hwindow.
  match type of Hcall with
  | context [trace w0 ++ ?es] =>
      change (trace w0 ++ es) with (trace (record_all es w0)) in Hcall
  end.
  rewrite <- !record_all_cons, record_all_nil in Hwindow.
  rewrite <- !record_all_cons, record_all_nil in Hcall.
  unfold cdp.executeScript.
  await_with Hget.
  await_with (send_answered _ _ _ _ Henable).
  await_with (send_answered _ _ _ _ Hwindow).
  await_with (send_answered _ _ _ _ Hcall).
  rewrite bool_decide_eq_false_2 by (rewrite Hclass; discriminate).
  rewrite bool_decide_eq_true_2 by exact Hclass.
  unfold ret. by rewrite <- !record_all_cons, record_all_nil.
Qed.

(** X11. For any other result the value that [executeScript] returns is
    the one of the second evaluation (the call with [returnByValue]),
    not of the first; when the host rejects that second call the error
    is thrown although the first evaluation succeeded. *)
Theorem executeScript_value_of_second_call
    (page : Page) (script : string) (args : list JSValue)
    (w w0 : World) (cdpSession : CDPSession) (window returnedRef : RemoteObject) :
  let enable := Send cdpSession Runtime_enable in
  let evaluate := Send cdpSession (Runtime_evaluate "window") in
  let call returnByValue :=
    Runtime_callFunctionOn (remote_objectId window)
      ("function() { " +:+ script +:+ " }") (map cdp.marshal_argument args)
      returnByValue in
  cdp.getCDPSession page w = (Returned cdpSession, w0) ->
  host_send (trace w0) cdpSession Runtime_enable = Some tt ->
  host_send (trace w0 ++ [enable]) cdpSession (Runtime_evaluate "window") = Some window ->
  host_send (trace w0 ++ [enable; evaluate]) cdpSession (call None) = Some returnedRef ->
  className returnedRef <> Some "NodeList" ->
  className returnedRef <> Some "HTMLHtmlElement" ->
  fst (cdp.executeScript page script args w)
  = match host_send (trace w0 ++ [enable; evaluate; Send cdpSession (call None)])
            cdpSession (call (Some true)) with
    | Some returnedValue => Returned (cdp.ResultValue (remote_value returnedValue))
    | None => Thrown ProtocolError
    end.
Proof.
  cbv zeta. intros Hget Henable Hwindow Hcall Hlist Hroot.
  change (trace w0 ++ [Send cdpSession Runtime_enable])
    with (trace (record_all [Send cdpSession Runtime_enable] w0)) in Hwindow.
  match type of Hcall with
  | context [trace w0 ++ ?es] =>
      change (trace w0 ++ es) with (trace (record_all es w0)) in Hcall
  end.
  match goal with
  | |- context [trace w0 ++ ?es] =>
      change (trace w0 ++ es) with (trace (record_all es w0))
  end.
  rewrite <- !record_all_cons, record_all_nil in Hwindow.
  rewrite <- !record_all_cons, record_all_nil in Hcall.
  rewrite <- !record_all_cons, record_all_nil.
  unfold cdp.executeScript.
  await_with Hget.
  await_with (send_answered _ _ _ _ Henable).
  await_with (send_answered _ _ _ _ Hwindow).
  await_with (send_answered _ _ _ _ Hcall).
  rewrite !bool_decide_eq_false_2 by assumption.
  unfold bind, cdp.send.
  match goal with
  | |- context [host_send ?t ?s ?r] => destruct (host_send t s r)
  end; reflexivity.
Qed.

(** X12. When the host rejects [Runtime.enable], [executeScript] throws
    that protocol error and sends nothing else: the script is not
    evaluated. *)
Theorem executeScript_rejected_enable
    (page : Page) (script : string) (args : list JSValue)
    (w w0 : World) (cdpSession : CDPSession) :
  cdp.getCDPSession page w = (Returned cdpSession, w0) ->
  host_send (trace w0) cdpSession Runtime_enable = None ->
  cdp.executeScript page script args w
  = (Thrown ProtocolError, record (Send cdpSession Runtime_enable) w0).
Proof.
  intros Hget Henable. unfold cdp.executeScript.
  await_with Hget.
  await_with (send_rejected _ _ _ Henable).
  reflexivity.
Qed.

End ScriptResults.

Lemma executeScript_node_list_witness :
  fst (cdp.executeScript (config := sample_config) (builtins := index_builtins)
         (host := node_list_host) 0 "return document.querySelectorAll('div')" []
         initial_world)
  = Returned
      (cdp.ResultArray
         [cdp.element_reference (config := sample_config) (Some "a");
          cdp.element_reference (config := sample_config) (Some "b")]).
Proof.
  exact (executeScript_node_list (config := sample_config) (builtins := index_builtins)
           (host := node_list_host) 0 "return document.querySelectorAll('div')" []
           initial_world sample_world 0
           (sample_object (Some "Window") "window" JSUndefined)
           (sample_object (Some "NodeList") "list" JSUndefined)
           _ eq_refl eq_refl eq_refl eq_refl eq_refl eq_refl).
Defined.

Lemma executeScript_root_element_witness :
  cdp.executeScript (config := sample_config) (builtins := sample_builtins)
    (host := root_element_host) 0 "return document.documentElement" [] initial_world
  = (Returned (cdp.ResultValue (cdp.element_reference (config := sample_config)
                                  (Some "html"))),
     record_all
       [Send 0 Runtime_enable; Send 0 (Runtime_evaluate "window");
        Send 0 (Runtime_callFunctionOn (Some "window")
                  "function() { return document.documentElement }" [] None)]
       sample_world).
Proof.
  exact (executeScript_root_element (config := sample_config)
           (builtins := sample_builtins) (host := root_element_host)
           0 "return document.documentElement" [] initial_world sample_world 0
           (sample_object (Some "Window") "window" JSUndefined)
           (sample_object (Some "HTMLHtmlElement") "html" JSUndefined)
           eq_refl eq_refl eq_refl eq_refl eq_refl).
Defined.

Lemma executeScript_value_of_second_call_witness :
  fst (cdp.executeScript (config := sample_config) (builtins := sample_builtins)
         (host := sample_host) 0 "return 42" [] initial_world)
  = Returned (cdp.ResultValue (JSNumber 42%float)).
Proof.
  apply (executeScript_value_of_second_call (config := sample_config)
           (builtins := sample_builtins) (host := sample_host)
           0 "return 42" [] initial_world sample_world 0
           (sample_object (Some "Window") "window" JSUndefined)
           {| className := None; remote_objectId := None;
              remote_value := JSNumber 42%float |}
           eq_refl eq_refl eq_refl eq_refl); discriminate.
Defined.

Lemma executeScript_rejected_enable_witness :
  cdp.executeScript (config := sample_config) (builtins := sample_builtins)
    (host := refusing_host) 0 "return 42" [] initial_world
  = (Thrown ProtocolError, record (Send 0 Runtime_enable) sample_world).
Proof.
  exact (executeScript_rejected_enable (config := sample_config)
           (builtins := sample_builtins) (host := refusing_host)
           0 "return 42" [] initial_world sample_world 0 eq_refl eq_refl).
Defined.

(** ** Sending keys, on rejection and on empty input *)

Section SendKeysEdges.
Context {builtins : Builtins} {host : Host}.

(** The calls made are an initial part of the requests, in order. *)
Lemma send_until_rejected_prefix session requests :
  forall t,
    fst (send_until_rejected t session requests) `prefix_of` map (Send session) requests.
Proof.
  induction requests as [|r requests IH]; intros t; cbn [send_until_rejected map].
  - done.
  - destruct (host_send t session r).
    + specialize (IH (t ++ [Send session r])).
      destruct (send_until_rejected _ session requests). by apply prefix_cons.
    + apply prefix_cons, prefix_nil.
Qed.

(** They are all of the requests exactly when all were answered. *)
Lemma send_until_rejected_all session requests :
  forall t,
    snd (send_until_rejected t session requests) = true ->
    fst (send_until_rejected t session requests) = map (Send session) requests.
Proof.
  induction requests as [|r requests IH]; intros t; cbn [send_until_rejected map].
  - done.
  - destruct (host_send t session r); [|discriminate].
    specialize (IH (t ++ [Send session r])).
    destruct (send_until_rejected _ session requests). cbn [fst snd] in *.
    intros Hall. by rewrite IH.
Qed.

(** The loop of [sendKeysToElement] from the index [i] on sends the key
    events of the code units from [i] on until the host rejects one. *)
Lemma for_from_until_rejected session (value : list code_unit) n :
  forall i w,
    i + n = length value ->
    for_from i n (fun j =>
      cdp.send session (Input_dispatchKeyEvent "char" (cdp.string_index value j))) w
    = (if snd (send_until_rejected (trace w) session (map key_request (drop i value)))
       then Returned tt else Thrown ProtocolError,
       record_all
         (fst (send_until_rejected (trace w) session (map key_request (drop i value))))
         w).
Proof.
  induction n as [|n IH]; intros i w Hlen.
  - rewrite drop_ge by lia. cbn. by rewrite record_all_nil.
  - destruct (lookup_lt_is_Some_2 value i) as [u Hu]; [lia|].
    rewrite (drop_S _ _ _ Hu). cbn [for_from map send_until_rejected].
    unfold bind at 1. unfold cdp.send at 1.
    assert (Hindex : cdp.string_index value i = Some [u])
      by (unfold cdp.string_index; by rewrite Hu).
    rewrite Hindex. fold (key_request u).
    destruct (host_send (trace w) session (key_request u)) as [[]|].
    + rewrite (IH (S i) (record (Send session (key_request u)) w)) by lia.
      cbn [trace record].
      destruct (send_until_rejected _ session (map key_request (drop (S i) value)))
        as [sent all].
      cbn [fst snd]. by rewrite record_all_cons.
    + cbn [fst snd]. by rewrite <- record_all_cons, record_all_nil.
Qed.

(** X13. With an empty [value] array there is no string to send:
    [sendKeysToElement] resolves and focuses the node and then throws a
    [TypeError] at [value.length]; no key event is dispatched. *)
Theorem sendKeysToElement_without_value
    (page : Page) (id : string) (w w0 : World) (cdpSession : CDPSession)
    (nodeId : number) :
  cdp.getCDPSession page w = (Returned cdpSession, w0) ->
  host_send (trace w0) cdpSession (DOM_requestNode id) = Some nodeId ->
  host_send (trace w0 ++ [Send cdpSession (DOM_requestNode id)]) cdpSession
    (DOM_focus (by_nodeId nodeId)) = Some tt ->
  cdp.sendKeysToElement page id [] w
  = (Thrown TypeError,
     record_all
       [Send cdpSession (DOM_requestNode id);
        Send cdpSession (DOM_focus (by_nodeId nodeId))] w0).
Proof.
  intros Hget Hnode Hfocus.
  change (trace w0 ++ [Send cdpSession (DOM_requestNode id)])
    with (trace (record (Send cdpSession (DOM_requestNode id)) w0)) in Hfocus.
  unfold cdp.sendKeysToElement.
  await_with Hget.
  await_with (send_answered _ _ _ _ Hnode).
  await_with (send_answered _ _ _ _ Hfocus).
  cbn [lookup list_lookup cdp.non_null]. unfold bind, throw.
  by rewrite <- !record_all_cons, record_all_nil.
Qed.

(** X14. Whatever the host answers, [sendKeysToElement] makes its
    calls one after the other and stops after the first one that is
    rejected: it resolves the node; if that is answered it focuses the
    node; then it sends the key events of the code units in order for
    as long as the previous call was answered.  It returns [true]
    exactly when every call was answered, and throws the protocol
    error otherwise; what it has sent is always an initial part of
    "resolve, focus, one key event per code unit". *)
Theorem sendKeysToElement_sends_in_order
    (page : Page) (id : string) (s : list code_unit) (rest : list (list code_unit))
    (w w0 : World) (cdpSession : CDPSession) :
  cdp.getCDPSession page w = (Returned cdpSession, w0) ->
  let resolve := DOM_requestNode id in
  match host_send (trace w0) cdpSession resolve with
  | None =>
      cdp.sendKeysToElement page id (s :: rest) w
      = (Thrown ProtocolError, record (Send cdpSession resolve) w0)
  | Some nodeId =>
      let planned := DOM_focus (by_nodeId nodeId) :: map key_request s in
      let run :=
        send_until_rejected (trace w0 ++ [Send cdpSession resolve]) cdpSession planned in
      cdp.sendKeysToElement page id (s :: rest) w
      = (if snd run then Returned true else Thrown ProtocolError,
         record_all (Send cdpSession resolve :: fst run) w0)
      /\ fst run `prefix_of` map (Send cdpSession) planned
      /\ (snd run = true -> fst run = map (Send cdpSession) planned)
  end.
Proof.
  intros Hget. cbv zeta.
  destruct (host_send (trace w0) cdpSession (DOM_requestNode id)) as [nodeId|] eqn:Hnode.
  2:{ unfold cdp.sendKeysToElement.
      await_with Hget.
      await_with (send_rejected _ _ _ Hnode).
      reflexivity. }
  split; [|split; [apply send_until_rejected_prefix | apply send_until_rejected_all]].
  unfold cdp.sendKeysToElement.
  await_with Hget.
  await_with (send_answered _ _ _ _ Hnode).
  cbn [send_until_rejected].
  unfold bind at 1. unfold cdp.send at 1. cbn [trace record].
  destruct (host_send (trace w0 ++ [Send cdpSession (DOM_requestNode id)]) cdpSession
              (DOM_focus (by_nodeId nodeId))) as [[]|].
  2:{ cbn [fst snd]. by rewrite <- (record_all_nil (record _ (record _ w0))),
        !record_all_cons. }
  cbn [lookup list_lookup cdp.non_null].
  unfold bind at 1. unfold ret at 1. cbv beta iota. unfold for_loop, bind.
  rewrite (for_from_until_rejected cdpSession s (length s) 0) by lia.
  rewrite drop_0. cbn [trace record].
  destruct (send_until_rejected _ cdpSession (map key_request s)) as [sent all].
  cbn [fst snd]. destruct all; by rewrite !record_all_cons.
Qed.

(** X15. The page action [sendKeysToElement] types only into a focused
    node: [page.keyboard.type] is called exactly when [DOM.focus] was
    answered, after it, and with the whole string; a rejected focus is
    thrown and nothing is typed. *)
Theorem actions_sendKeysToElement_types_after_focus
    (page : Page) (id value : string) (w w0 : World) (cdpSession : CDPSession) :
  cdp.getCDPSession page w = (Returned cdpSession, w0) ->
  let focus := DOM_focus (by_backendNodeId (parseInt id)) in
  events_since w0 (snd (actions.sendKeysToElement page id value w))
  = Send cdpSession focus
    :: match host_send (trace w0) cdpSession focus with
       | Some _ => [KeyboardType page value]
       | None => []
       end.
Proof.
  intros Hget. cbv zeta.
  unfold actions.sendKeysToElement, cdp.focusElement.
  unfold bind at 1. await_with Hget. unfold cdp.send.
  destruct (host_send (trace w0) cdpSession _) as [[]|].
  - unfold actions.sendKeys, actions.keyboard_type.
    destruct (host_keyboard_type _ _ _); cbn [snd];
      unfold events_since; cbn [trace record];
      by rewrite <- !app_assoc, drop_app_length.
  - cbn [snd]. unfold events_since. cbn [trace record].
    by rewrite drop_app_length.
Qed.

End SendKeysEdges.

Lemma sendKeysToElement_without_value_witness :
  cdp.sendKeysToElement (host := sample_host) 0 "node-1" [] initial_world
  = (Thrown TypeError,
     record_all
       [Send 0 (DOM_requestNode "node-1"); Send 0 (DOM_focus (by_nodeId 7%float))]
       sample_world).
Proof.
  exact (sendKeysToElement_without_value (host := sample_host) 0 "node-1"
           initial_world sample_world 0 7%float eq_refl eq_refl eq_refl).
Defined.

(** A host that rejects key events: the first one is sent and
    rejected, the second is not sent. *)
Lemma sendKeysToElement_sends_in_order_witness :
  cdp.sendKeysToElement (host := node_list_host) 0 "node-1" [of_latin1 "hi"]
    initial_world
  = (Thrown ProtocolError,
     record_all
       [Send 0 (DOM_requestNode "node-1"); Send 0 (DOM_focus (by_nodeId 7%float));
        character_event 0 (of_latin1 "h")]
       sample_world).
Proof.
  exact (proj1 (sendKeysToElement_sends_in_order (host := node_list_host)
                  0 "node-1" (of_latin1 "hi") [] initial_world sample_world 0 eq_refl)).
Defined.

Lemma actions_sendKeysToElement_types_after_focus_witness :
  events_since sample_world
    (snd (actions.sendKeysToElement (builtins := sample_builtins) (host := sample_host)
            0 "7" "hello" initial_world))
  = [Send 0 (DOM_focus (by_backendNodeId 7%float)); KeyboardType 0 "hello"]
  /\ events_since sample_world
       (snd (actions.sendKeysToElement (builtins := sample_builtins)
               (host := refusing_host) 0 "7" "hello" initial_world))
     = [Send 0 (DOM_focus (by_backendNodeId 7%float))].
Proof.
  split.
  - exact (actions_sendKeysToElement_types_after_focus (builtins := sample_builtins)
             (host := sample_host) 0 "7" "hello" initial_world sample_world 0 eq_refl).
  - exact (actions_sendKeysToElement_types_after_focus (builtins := sample_builtins)
             (host := refusing_host) 0 "7" "hello" initial_world sample_world 0 eq_refl).
Defined.

(** ** Scrolling a document without an element to scroll *)

(** X16. When the document has neither a scrolling element nor a body,
    [document.scrollingElement || document.body] is [null]: each of
    ['top'], ['bottom'], ['up'] and ['down'] then throws a [TypeError]
    from the method call on it, any other target still throws the error
    that names it, and in both cases the window is left as it was. *)
Theorem scrollPage_without_element (w : Window) (target : string) :
  scrollingElement (document w) = None ->
  body (document w) = None ->
  actions.scrollPage target w
  = (if bool_decide (target ∈ ["top"; "bottom"; "up"; "down"])
     then Thrown TypeError
     else Thrown (Error ("Unsupported scroll target " +:+ target)),
     w).
Proof.
  intros Hscrolling Hbody.
  assert (Hnone : actions.elementToScroll w = None).
  { unfold actions.elementToScroll. by rewrite Hscrolling. }
  case_bool_decide as Ht.
  - rewrite !elem_of_cons in Ht.
    destruct Ht as [->|[->|[->|[->|Ht]]]]; [| | | |by apply elem_of_nil in Ht];
      unfold actions.scrollPage, actions.call_on_element;
      cbn [String.eqb Ascii.eqb Bool.eqb]; by rewrite Hnone.
  - by apply scrollPage_unsupported.
Qed.

Lemma scrollPage_without_element_witness :
  actions.scrollPage "down" bodiless_window = (Thrown TypeError, bodiless_window)
  /\ actions.scrollPage "left" bodiless_window
     = (Thrown (Error "Unsupported scroll target left"), bodiless_window).
Proof.
  split.
  - exact (scrollPage_without_element bodiless_window "down" eq_refl eq_refl).
  - exact (scrollPage_without_element bodiless_window "left" eq_refl eq_refl).
Defined.

(** ** Clicking and hovering *)

Section Pointer.
Context {builtins : Builtins} {host : Host} {pointer_host : PointerHost}.

Lemma lift_run {A} (m : Async A) (r : PageWorld) :
  lift m r
  = (fst (m (world r)),
     {| world := snd (m (world r));
        page_trace :=
          page_trace r ++ (Protocol <$> events_since (world r) (snd (m (world r)))) |}).
Proof. unfold lift. by destruct (m (world r)). Qed.

(** Reading the geometry of a node whose first quad has four corners:
    one protocol call after the session is there. *)
Lemma getContentQuads_run
    (page : Page) (args : NodeSelector) (w w0 : World) (cdpSession : CDPSession)
    (quad : list number) (others : list (list number)) :
  cdp.getCDPSession page w = (Returned cdpSession, w0) ->
  host_send (trace w0) cdpSession (DOM_getContentQuads args) = Some (quad :: others) ->
  cdp.getContentQuads page args w
  = (Returned (cdp.content_quads_of quad),
     record (Send cdpSession (DOM_getContentQuads args)) w0).
Proof.
  intros Hget Hquads. unfold cdp.getContentQuads.
  await_with Hget.
  await_with (send_answered _ _ _ _ Hquads).
  reflexivity.
Qed.

Lemma getCDPSession_again (page : Page) (w w0 : World) (cdpSession : CDPSession) :
  cdp.getCDPSession page w = (Returned cdpSession, w0) ->
  cdp.getCDPSession page w0 = (Returned cdpSession, w0).
Proof.
  intros Hget. apply getCDPSession_cached.
  destruct (cdpSessionByPage w !! page) as [s|] eqn:Hc.
  - rewrite (getCDPSession_cached _ _ _ Hc) in Hget. by injection Hget as <- <-.
  - destruct (host_newCDPSession (trace w) page) eqn:Hh.
    + rewrite (getCDPSession_created _ _ Hc Hh) in Hget. injection Hget as <- <-.
      apply lookup_insert_eq.
    + by rewrite (getCDPSession_rejected _ _ Hc Hh) in Hget.
Qed.

(** Without a quad the destructuring throws, after the one call. *)
Lemma getContentQuads_empty_run
    (page : Page) (args : NodeSelector) (w w0 : World) (cdpSession : CDPSession) :
  cdp.getCDPSession page w = (Returned cdpSession, w0) ->
  host_send (trace w0) cdpSession (DOM_getContentQuads args) = Some [] ->
  cdp.getContentQuads page args w
  = (Thrown TypeError, record (Send cdpSession (DOM_getContentQuads args)) w0).
Proof.
  intros Hget Hquads. unfold cdp.getContentQuads.
  await_with Hget.
  await_with (send_answered _ _ _ _ Hquads).
  reflexivity.
Qed.

Lemma events_since_record (e : Event) (w w0 : World) (es : list Event) :
  trace w0 = trace w ++ es ->
  events_since w (record e w0) = events_since w w0 ++ [e].
Proof.
  intros Hes. unfold events_since. cbn [trace record].
  by rewrite Hes, <- app_assoc, !drop_app_length.
Qed.

Lemma events_since_session (page : Page) (w w0 : World) (cdpSession : CDPSession) :
  cdp.getCDPSession page w = (Returned cdpSession, w0) ->
  exists es, trace w0 = trace w ++ es.
Proof.
  intros Hget. destruct (getCDPSession_events page w) as (es & Hes & _).
  rewrite Hget in Hes. eauto.
Qed.

Lemma page_events_since_app (r : PageWorld) (w' : World) (es : list PageEvent) :
  page_events_since r {| world := w'; page_trace := page_trace r ++ es |} = es.
Proof. unfold page_events_since. cbn. by rewrite drop_app_length. Qed.

(** X17. [clickElement] of cdp.ts, on a node whose first content quad
    has the corners [(x0,y0), (x1,y1), (x2,y2), (x3,y3)]: after reading
    the geometry it presses the left button once at the center
    [(x0 + (x1 - x0) / 2, y1 + (y2 - y1) / 2)]; when the host accepts
    the press it then releases the button at the same point, and when
    the host rejects the press it sends nothing more.  It returns
    [true] exactly when both were accepted and throws the protocol
    error otherwise. *)
Theorem cdp_clickElement_at_center
    (page : Page) (id : string) (r : PageWorld) (w0 : World) (cdpSession : CDPSession)
    (x0 y0 x1 y1 x2 y2 x3 y3 : number) (others : list (list number)) :
  let geometry := Send cdpSession (DOM_getContentQuads (by_backendNodeId (parseInt id))) in
  let x := (x0 + (x1 - x0) / 2)%float in
  let y := (y1 + (y2 - y1) / 2)%float in
  let mouse type := Input_dispatchMouseEvent cdpSession type x y "left" 1%float 1%float in
  cdp.getCDPSession page (world r) = (Returned cdpSession, w0) ->
  host_send (trace w0) cdpSession (DOM_getContentQuads (by_backendNodeId (parseInt id)))
  = Some ([x0; y0; x1; y1; x2; y2; x3; y3] :: others) ->
  let before :=
    page_trace r ++ (Protocol <$> events_since (world r) w0) ++ [Protocol geometry] in
  let pressed := host_pointer before (mouse "mousePressed") in
  let released :=
    host_pointer (before ++ [Pointer (mouse "mousePressed")]) (mouse "mouseReleased") in
  page_events_since r (snd (cdp_pointer.clickElement page id r))
  = (Protocol <$> events_since (world r) w0)
    ++ Protocol geometry :: Pointer (mouse "mousePressed")
       :: (if pressed then [Pointer (mouse "mouseReleased")] else [])
  /\ fst (cdp_pointer.clickElement page id r)
     = if pressed && released then Returned true else Thrown ProtocolError.
Proof.
  cbv zeta. intros Hget Hquads.
  pose proof (getContentQuads_run _ _ _ _ _ _ _ (getCDPSession_again _ _ _ _ Hget) Hquads)
    as Hgeometry.
  destruct (cdp_pointer.clickElement page id r) as [outcome r'] eqn:Hrun.
  cbn [fst snd]. revert Hrun. unfold cdp_pointer.clickElement.
  unfold page_bind at 1. rewrite lift_run, Hget. cbn [fst snd]. cbv beta iota.
  unfold page_bind at 1. rewrite lift_run. cbn [world]. rewrite Hgeometry.
  cbn [fst snd page_trace]. cbv beta iota.
  rewrite (events_since_record _ w0 w0 []) by (by rewrite app_nil_r).
  replace (events_since w0 w0) with (@nil Event)
    by (unfold events_since; by rewrite drop_all).
  unfold page_bind, pointer, page_ret. cbn [page_trace world app fmap list_fmap].
  cbn [cdp.centerX cdp.centerY cdp.content_quads_of lookup list_lookup cdp.ToNumber
       cdp.width cdp.height].
  rewrite <- !app_assoc. cbn [app].
  destruct (host_pointer _ (Input_dispatchMouseEvent _ "mousePressed" _ _ _ _ _));
    cbv beta iota; cbn [page_trace andb].
  - rewrite <- !app_assoc. cbn [app].
    destruct (host_pointer _ (Input_dispatchMouseEvent _ "mouseReleased" _ _ _ _ _));
      intros [= <- <-]; rewrite page_events_since_app; by split.
  - intros [= <- <-]. rewrite page_events_since_app. by split.
Qed.

End Pointer.

Section PointerActions.
Context {builtins : Builtins} {host : Host} {pointer_host : PointerHost}.

(** X18. The page action [clickElement] is "hover, then click" at the
    center of the node's first content quad: it moves the pointer to
    [(x0 + (x1 - x0) / 2, y1 + (y2 - y1) / 2)]; when the host accepts
    the move it then clicks at that same point, and when the host
    rejects the move it does not click.  It completes exactly when both
    were accepted and throws the protocol error otherwise. *)
Theorem actions_clickElement_hovers_then_clicks
    (page : Page) (id : string) (r : PageWorld) (w0 : World) (cdpSession : CDPSession)
    (x0 y0 x1 y1 x2 y2 x3 y3 : number) (others : list (list number)) :
  let geometry := Send cdpSession (DOM_getContentQuads (by_backendNodeId (parseInt id))) in
  let x := (x0 + (x1 - x0) / 2)%float in
  let y := (y1 + (y2 - y1) / 2)%float in
  cdp.getCDPSession page (world r) = (Returned cdpSession, w0) ->
  host_send (trace w0) cdpSession (DOM_getContentQuads (by_backendNodeId (parseInt id)))
  = Some ([x0; y0; x1; y1; x2; y2; x3; y3] :: others) ->
  let before :=
    page_trace r ++ (Protocol <$> (events_since (world r) w0 ++ [geometry])) in
  let moved := host_pointer before (Mouse_move page x y) in
  let clicked :=
    host_pointer (before ++ [Pointer (Mouse_move page x y)]) (Mouse_click page x y) in
  page_events_since r (snd (actions_pointer.clickElement page id r))
  = (Protocol <$> (events_since (world r) w0 ++ [geometry]))
    ++ Pointer (Mouse_move page x y)
       :: (if moved then [Pointer (Mouse_click page x y)] else [])
  /\ fst (actions_pointer.clickElement page id r)
     = if moved && clicked then Returned tt else Thrown ProtocolError.
Proof.
  cbv zeta. intros Hget Hquads.
  pose proof (getContentQuads_run _ _ _ _ _ _ _ Hget Hquads) as Hgeometry.
  destruct (events_since_session _ _ _ _ Hget) as [es Hes].
  destruct (actions_pointer.clickElement page id r) as [outcome r'] eqn:Hrun.
  cbn [fst snd]. revert Hrun. unfold actions_pointer.clickElement.
  unfold page_bind at 1. rewrite lift_run, Hgeometry. cbn [fst snd]. cbv beta iota.
  rewrite (events_since_record _ _ _ _ Hes).
  unfold actions_pointer.clickLocation, actions_pointer.hoverLocation, page_bind, pointer.
  cbn [page_trace world].
  cbn [cdp.centerX cdp.centerY cdp.content_quads_of lookup list_lookup cdp.ToNumber
       cdp.width cdp.height].
  destruct (host_pointer _ (Mouse_move _ _ _)); cbv beta iota; cbn [page_trace andb].
  - destruct (host_pointer _ (Mouse_click _ _ _));
      intros [= <- <-]; rewrite <- !app_assoc, page_events_since_app; by split.
  - intros [= <- <-]. rewrite <- !app_assoc, page_events_since_app. by split.
Qed.

(** X19. [hoverElement] moves the pointer to the center of the node's
    first content quad and makes no other pointer call: it never
    clicks. *)
Theorem actions_hoverElement_only_moves
    (page : Page) (id : string) (r : PageWorld) (w0 : World) (cdpSession : CDPSession)
    (x0 y0 x1 y1 x2 y2 x3 y3 : number) (others : list (list number)) :
  cdp.getCDPSession page (world r) = (Returned cdpSession, w0) ->
  host_send (trace w0) cdpSession (DOM_getContentQuads (by_backendNodeId (parseInt id)))
  = Some ([x0; y0; x1; y1; x2; y2; x3; y3] :: others) ->
  pointer_calls (page_events_since r (snd (actions_pointer.hoverElement page id r)))
  = [Mouse_move page (x0 + (x1 - x0) / 2)%float (y1 + (y2 - y1) / 2)%float].
Proof.
  intros Hget Hquads.
  pose proof (getContentQuads_run _ _ _ _ _ _ _ Hget Hquads) as Hgeometry.
  unfold actions_pointer.hoverElement.
  unfold page_bind at 1. rewrite lift_run, Hgeometry. cbn [fst snd]. cbv beta iota.
  unfold actions_pointer.hoverLocation, pointer. cbn [page_trace world].
  destruct (host_pointer _ _); cbn [snd];
    rewrite <- !app_assoc, page_events_since_app;
    unfold pointer_calls; rewrite omap_app;
    (replace (omap _ (Protocol <$> _)) with (@nil PointerCall);
     [reflexivity |]);
    symmetry; clear; generalize (events_since (world r)
      (record (Send cdpSession (DOM_getContentQuads (by_backendNodeId (parseInt id)))) w0));
    intros l; by induction l.
Qed.

(** X20. A node without any content quad is neither clicked nor
    hovered: [clickElement] of cdp.ts and the page actions
    [clickElement] and [hoverElement] all throw the [TypeError] of the
    geometry and make no pointer call. *)
Theorem no_pointer_call_without_quads
    (page : Page) (id : string) (r : PageWorld) (w0 : World) (cdpSession : CDPSession) :
  cdp.getCDPSession page (world r) = (Returned cdpSession, w0) ->
  host_send (trace w0) cdpSession (DOM_getContentQuads (by_backendNodeId (parseInt id)))
  = Some [] ->
  (fst (cdp_pointer.clickElement page id r) = Thrown TypeError
   /\ pointer_calls (page_events_since r (snd (cdp_pointer.clickElement page id r))) = [])
  /\ (fst (actions_pointer.clickElement page id r) = Thrown TypeError
      /\ pointer_calls
           (page_events_since r (snd (actions_pointer.clickElement page id r))) = [])
  /\ (fst (actions_pointer.hoverElement page id r) = Thrown TypeError
      /\ pointer_calls
           (page_events_since r (snd (actions_pointer.hoverElement page id r))) = []).
Proof.
  intros Hget Hquads.
  pose proof (getContentQuads_empty_run _ _ _ _ _ Hget Hquads) as Hnone.
  pose proof (getContentQuads_empty_run _ _ _ _ _
                (getCDPSession_again _ _ _ _ Hget) Hquads) as Hnone0.
  assert (Hsilent : forall l : list Event,
            pointer_calls (Protocol <$> l) = []) by (intros l; by induction l).
  repeat split.
  - unfold cdp_pointer.clickElement, page_bind.
    by rewrite lift_run, Hget, lift_run; cbn [fst snd world]; rewrite Hnone0.
  - unfold cdp_pointer.clickElement, page_bind.
    rewrite lift_run, Hget, lift_run; cbn [fst snd world]; rewrite Hnone0.
    cbn [fst snd page_trace]. rewrite <- app_assoc, page_events_since_app.
    by rewrite <- fmap_app, Hsilent.
  - unfold actions_pointer.clickElement, page_bind. by rewrite lift_run, Hnone.
  - unfold actions_pointer.clickElement, page_bind. rewrite lift_run, Hnone.
    cbn [fst snd]. by rewrite page_events_since_app, Hsilent.
  - unfold actions_pointer.hoverElement, page_bind. by rewrite lift_run, Hnone.
  - unfold actions_pointer.hoverElement, page_bind. rewrite lift_run, Hnone.
    cbn [fst snd]. by rewrite page_events_since_app, Hsilent.
Qed.

End PointerActions.

(** On the sample page the node's quad is (0,0), (10,0), (10,20),
    (0,20): the pointer goes to (5,10). *)
Lemma cdp_clickElement_at_center_witness :
  page_events_since initial_page
    (snd (cdp_pointer.clickElement (builtins := sample_builtins) (host := sample_host)
            (pointer_host := accepting_pointer_host) 0 "7" initial_page))
  = [Protocol (NewCDPSession 0);
     Protocol (Send 0 (DOM_getContentQuads (by_backendNodeId 7%float)));
     Pointer (Input_dispatchMouseEvent 0 "mousePressed" 5%float 10%float "left"
                1%float 1%float);
     Pointer (Input_dispatchMouseEvent 0 "mouseReleased" 5%float 10%float "left"
                1%float 1%float)]
  /\ fst (cdp_pointer.clickElement (builtins := sample_builtins) (host := sample_host)
            (pointer_host := accepting_pointer_host) 0 "7" initial_page)
     = Returned true.
Proof.
  exact (cdp_clickElement_at_center (builtins := sample_builtins)
           (host := sample_host) (pointer_host := accepting_pointer_host)
           0 "7" initial_page sample_world 0
           0%float 0%float 10%float 0%float 10%float 20%float 0%float 20%float []
           eq_refl eq_refl).
Defined.

(** When the host rejects pointer calls the move is made and rejected,
    and there is no click. *)
Lemma actions_clickElement_hovers_then_clicks_witness :
  (page_events_since initial_page
     (snd (actions_pointer.clickElement (builtins := sample_builtins)
             (host := sample_host) (pointer_host := accepting_pointer_host)
             0 "7" initial_page))
   = [Protocol (NewCDPSession 0);
      Protocol (Send 0 (DOM_getContentQuads (by_backendNodeId 7%float)));
      Pointer (Mouse_move 0 5%float 10%float);
      Pointer (Mouse_click 0 5%float 10%float)]
   /\ fst (actions_pointer.clickElement (builtins := sample_builtins)
             (host := sample_host) (pointer_host := accepting_pointer_host)
             0 "7" initial_page)
      = Returned tt)
  /\ (page_events_since initial_page
        (snd (actions_pointer.clickElement (builtins := sample_builtins)
                (host := sample_host) (pointer_host := rejecting_pointer_host)
                0 "7" initial_page))
      = [Protocol (NewCDPSession 0);
         Protocol (Send 0 (DOM_getContentQuads (by_backendNodeId 7%float)));
         Pointer (Mouse_move 0 5%float 10%float)]
      /\ fst (actions_pointer.clickElement (builtins := sample_builtins)
                (host := sample_host) (pointer_host := rejecting_pointer_host)
                0 "7" initial_page)
         = Thrown ProtocolError).
Proof.
  split.
  - exact (actions_clickElement_hovers_then_clicks (builtins := sample_builtins)
             (host := sample_host) (pointer_host := accepting_pointer_host)
             0 "7" initial_page sample_world 0
             0%float 0%float 10%float 0%float 10%float 20%float 0%float 20%float []
             eq_refl eq_refl).
  - exact (actions_clickElement_hovers_then_clicks (builtins := sample_builtins)
             (host := sample_host) (pointer_host := rejecting_pointer_host)
             0 "7" initial_page sample_world 0
             0%float 0%float 10%float 0%float 10%float 20%float 0%float 20%float []
             eq_refl eq_refl).
Defined.

Lemma actions_hoverElement_only_moves_witness :
  pointer_calls
    (page_events_since initial_page
       (snd (actions_pointer.hoverElement (builtins := sample_builtins)
               (host := sample_host) (pointer_host := rejecting_pointer_host)
               0 "7" initial_page)))
  = [Mouse_move 0 5%float 10%float].
Proof.
  exact (actions_hoverElement_only_moves (builtins := sample_builtins)
           (host := sample_host) (pointer_host := rejecting_pointer_host)
           0 "7" initial_page sample_world 0
           0%float 0%float 10%float 0%float 10%float 20%float 0%float 20%float []
           eq_refl eq_refl).
Defined.

Lemma no_pointer_call_without_quads_witness :
  fst (cdp_pointer.clickElement (builtins := sample_builtins) (host := node_list_host)
         (pointer_host := accepting_pointer_host) 0 "7" initial_page)
  = Thrown TypeError
  /\ pointer_calls
       (page_events_since initial_page
          (snd (cdp_pointer.clickElement (builtins := sample_builtins)
                  (host := node_list_host) (pointer_host := accepting_pointer_host)
                  0 "7" initial_page)))
     = [].
Proof.
  exact (proj1 (no_pointer_call_without_quads (builtins := sample_builtins)
                  (host := node_list_host) (pointer_host := accepting_pointer_host)
                  0 "7" initial_page sample_world 0 eq_refl eq_refl)).
Defined.

(** ** The viewport metadata *)

(** X21. The viewport width and height that [getViewportMetadata]
    reports are never [NaN]: a missing visual viewport, and a width or
    height that is [NaN] or zero, are reported as [0]; any other width
    or height is reported as it is. *)
Theorem getViewportMetadata_never_nan (w : ViewportWindow) :
  PrimFloat.is_nan (viewportWidth (getViewportMetadata w)) = false
  /\ PrimFloat.is_nan (viewportHeight (getViewportMetadata w)) = false
  /\ (window_visualViewport w = None ->
      viewportWidth (getViewportMetadata w) = 0%float
      /\ viewportHeight (getViewportMetadata w) = 0%float)
  /\ (forall viewport,
        window_visualViewport w = Some viewport ->
        PrimFloat.is_nan (viewport_width viewport) = false ->
        PrimFloat.is_zero (viewport_width viewport) = false ->
        viewportWidth (getViewportMetadata w) = viewport_width viewport).
Proof.
  assert (Hnan : forall x, PrimFloat.is_nan (or_zero x) = false).
  { intros [n|]; [|reflexivity]. unfold or_zero, ToBoolean.
    destruct (PrimFloat.is_nan n) eqn:Hn; destruct (PrimFloat.is_zero n);
      cbn [orb negb]; try reflexivity; exact Hn. }
  split; [apply Hnan|]. split; [apply Hnan|]. split.
  - unfold getViewportMetadata. by intros ->.
  - intros viewport Hw Hn Hz. unfold getViewportMetadata. rewrite Hw.
    cbn [viewportWidth fmap option_fmap option_map]. unfold or_zero, ToBoolean.
    by rewrite Hn, Hz.
Qed.

(** ** Two callers at the first access *)

Section FirstAccess.
Context {host : Host}.

(** Run without another caller in between, the two halves of
    [getCDPSession] are [getCDPSession]. *)
Lemma getCDPSession_halves (page : Page) (w : World) :
  (let* created := getCDPSession_until_await page in
   getCDPSession_after_await page created) w
  = cdp.getCDPSession page w.
Proof.
  unfold getCDPSession_until_await, getCDPSession_after_await, cdp.getCDPSession,
    bind, cdp.Map_has.
  destruct (negb (bool_decide (is_Some (cdpSessionByPage w !! page)))); [|reflexivity].
  unfold cdp.newCDPSession.
  destruct (host_newCDPSession (trace w) page); reflexivity.
Qed.

(** X22. When two callers ask for the session of a page that has none
    and the second asks before the first has resumed from its [await],
    the host creates two sessions: each caller gets its own, the cache
    keeps the second one only, and both stay attached to the page, so
    that the first is out of reach of [detachCPDSession]. *)
Theorem concurrent_first_access_duplicates (page : Page) (w : World) :
  cache_consistent w ->
  cdpSessionByPage w !! page = None ->
  host_newCDPSession (trace w) page = true ->
  host_newCDPSession (trace w ++ [NewCDPSession page]) page = true ->
  exists first second w',
    (let* a := getCDPSession_until_await page in
     let* b := getCDPSession_until_await page in
     let* session_a := getCDPSession_after_await page a in
     let* session_b := getCDPSession_after_await page b in
     ret (session_a, session_b)) w
    = (Returned (first, second), w')
    /\ first <> second
    /\ cdpSessionByPage w' !! page = Some second
    /\ sessions_of page w' = {[ first; second ]}.
Proof.
  intros [Hiff Hlt] Hc Hh1 Hh2.
  exists (sessions_created w), (S (sessions_created w)). eexists. split.
  - unfold getCDPSession_until_await, getCDPSession_after_await, bind, cdp.Map_has,
      cdp.newCDPSession, cdp.Map_set, cdp.Map_get, ret.
    rewrite Hc. rewrite bool_decide_eq_false_2 by (intros [? ?]; discriminate).
    cbn [negb]. rewrite Hh1. cbn [cdpSessionByPage trace sessions_created attached].
    rewrite Hc. rewrite bool_decide_eq_false_2 by (intros [? ?]; discriminate).
    cbn [negb cdpSessionByPage trace sessions_created attached]. rewrite Hh2.
    cbn [cdpSessionByPage trace sessions_created attached].
    rewrite lookup_insert_eq. cbn [cdp.non_null ret].
    rewrite lookup_insert_eq. cbn [cdp.non_null ret]. reflexivity.
  - split; [lia|]. cbn [cdpSessionByPage attached]. split; [apply lookup_insert_eq|].
    apply set_eq. intros s. unfold sessions_of. cbn [attached].
    rewrite elem_of_dom. unfold is_Some.
    setoid_rewrite map_lookup_filter_Some. cbn [snd].
    rewrite elem_of_union, !elem_of_singleton. split.
    + intros (p & Ha & ->).
      destruct (decide (s = S (sessions_created w))) as [->|Hs2]; [by right|].
      rewrite lookup_insert_ne in Ha by done.
      destruct (decide (s = sessions_created w)) as [->|Hs1]; [by left|].
      rewrite lookup_insert_ne in Ha by done.
      apply Hiff in Ha. congruence.
    + intros [-> | ->]; exists page; split; try done.
      * rewrite lookup_insert_ne by lia. apply lookup_insert_eq.
      * apply lookup_insert_eq.
Qed.

End FirstAccess.

Lemma concurrent_first_access_duplicates_witness :
  exists w',
    (let* a := getCDPSession_until_await (host := sample_host) 0 in
     let* b := getCDPSession_until_await (host := sample_host) 0 in
     let* session_a := getCDPSession_after_await 0 a in
     let* session_b := getCDPSession_after_await 0 b in
     ret (session_a, session_b)) initial_world
    = (Returned (0, 1), w')
    /\ cdpSessionByPage w' !! 0 = Some 1
    /\ sessions_of 0 w' = {[ 0; 1 ]}.
Proof.
  destruct (concurrent_first_access_duplicates (host := sample_host) 0 initial_world
              initial_world_consistent eq_refl eq_refl eq_refl)
    as (first & second & w' & Hrun & _ & Hcache & Hsessions).
  pose proof (eq_refl :
    (let* a := getCDPSession_until_await (host := sample_host) 0 in
     let* b := getCDPSession_until_await (host := sample_host) 0 in
     let* session_a := getCDPSession_after_await 0 a in
     let* session_b := getCDPSession_after_await 0 b in
     ret (session_a, session_b)) initial_world
    = (Returned (0, 1),
       snd ((let* a := getCDPSession_until_await (host := sample_host) 0 in
             let* b := getCDPSession_until_await (host := sample_host) 0 in
             let* session_a := getCDPSession_after_await 0 a in
             let* session_b := getCDPSession_after_await 0 b in
             ret (session_a, session_b)) initial_world))) as Hconcrete.
  rewrite Hrun in Hconcrete. injection Hconcrete as -> ->.
  exists w'. split; [exact Hrun | split; assumption].
Defined.
